(** * SageMaker training component: a shallow embedding

    Model of [components/aws/sagemaker/train/src/sagemaker_training_component.py]:
    the request builder [_create_job_request], the status classifier
    [_get_job_status], the output extractor [_after_job_complete] and the
    termination and log hooks of [SageMakerTrainingComponent].

    Python values are a small untyped universe; dictionaries are association
    lists in insertion order (the builder iterates [items()], so order is
    observable); exceptions are an error sum; logging, the boto3 client and
    the component's attribute are threaded through an explicit world. *)

From Stdlib Require Import String Ascii List ZArith Bool Lia.
Import ListNotations.
Open Scope string_scope.
Set Warnings "-register-all".

(* ================================================================== *)
(** ** Python values *)
(* ================================================================== *)

Inductive value : Type :=
| VNone
| VBool (b : bool)
| VInt (n : Z)
| VStr (s : string)
| VList (l : list value)
| VDict (d : list (string * value)).

(** A Python [dict] with string keys, in insertion order. *)
Definition dict : Type := list (string * value).

Inductive exn : Type :=
| Exception (msg : string)
| KeyError (key : string)
| TypeError
| AttributeError
| NameError (name : string).

(** [if x:] *)
Definition truthy (v : value) : bool :=
  match v with
  | VNone => false
  | VBool b => b
  | VInt n => negb (Z.eqb n 0)
  | VStr s => negb (String.eqb s "")
  | VList l => match l with [] => false | _ => true end
  | VDict d => match d with [] => false | _ => true end
  end.

Fixpoint dict_get (k : string) (d : dict) : option value :=
  match d with
  | [] => None
  | (k', v) :: d' => if String.eqb k k' then Some v else dict_get k d'
  end.

(** [d[k] = v]: an existing key keeps its position, a new one goes last. *)
Fixpoint dict_set (k : string) (v : value) (d : dict) : dict :=
  match d with
  | [] => [(k, v)]
  | (k', v') :: d' =>
      if String.eqb k k' then (k, v) :: d' else (k', v') :: dict_set k v d'
  end.

Definition dict_del (k : string) (d : dict) : dict :=
  filter (fun kv => negb (String.eqb k (fst kv))) d.

(** [d.get(k)] and [d.get(k, default)] *)
Definition get_or (default : value) (k : string) (d : dict) : value :=
  match dict_get k d with Some v => v | None => default end.

Definition get : string -> dict -> value := get_or VNone.

(** [v[k]] for a string subscript. *)
Definition py_getitem (v : value) (k : string) : exn + value :=
  match v with
  | VDict d =>
      match dict_get k d with Some x => inr x | None => inl (KeyError k) end
  | _ => inl TypeError
  end.

(** [v[k] = x] *)
Definition py_setitem (v : value) (k : string) (x : value) : exn + value :=
  match v with
  | VDict d => inr (VDict (dict_set k x d))
  | _ => inl TypeError
  end.

(** [v.pop(k)], keeping the dictionary that is left. *)
Definition py_pop (v : value) (k : string) : exn + value :=
  match v with
  | VDict d =>
      match dict_get k d with
      | Some _ => inr (VDict (dict_del k d))
      | None => inl (KeyError k)
      end
  | VList _ => inl TypeError
  | _ => inl AttributeError
  end.

(** [v.append(x)] *)
Definition py_append (v : value) (x : value) : exn + value :=
  match v with
  | VList l => inr (VList (l ++ [x]))
  | _ => inl AttributeError
  end.

(** [v.items()] *)
Definition py_items (v : value) : exn + dict :=
  match v with
  | VDict d => inr d
  | _ => inl AttributeError
  end.

(** [len(v)] *)
Definition py_len (v : value) : exn + Z :=
  match v with
  | VStr s => inr (Z.of_nat (String.length s))
  | VList l => inr (Z.of_nat (List.length l))
  | VDict d => inr (Z.of_nat (List.length d))
  | _ => inl TypeError
  end.

(** [k in v] for a string [k]. *)
Fixpoint substring_at (k s : string) : bool :=
  match s with
  | EmptyString => String.eqb k ""
  | String _ s' => String.prefix k s || substring_at k s'
  end.

Definition is_str (k : string) (v : value) : bool :=
  match v with VStr s => String.eqb k s | _ => false end.

Definition py_contains (k : string) (v : value) : exn + bool :=
  match v with
  | VDict d => inr (match dict_get k d with Some _ => true | None => false end)
  | VList l => inr (existsb (is_str k) l)
  | VStr s => inr (substring_at k s)
  | _ => inl TypeError
  end.

(** *** String methods

    [str.lower] and [str.strip] are built-ins that know all of Unicode: the
    component takes them from its environment.  On a string of ASCII
    characters they are [ascii_lower] and [ascii_strip], which the sample
    environments use. *)

Definition lower_ascii (c : ascii) : ascii :=
  let n := nat_of_ascii c in
  if Nat.leb 65 n && Nat.leb n 90 then ascii_of_nat (n + 32) else c.

Fixpoint ascii_lower (s : string) : string :=
  match s with
  | EmptyString => EmptyString
  | String c s' => String (lower_ascii c) (ascii_lower s')
  end.

(** The ASCII characters [str.isspace] accepts. *)
Definition is_space (c : ascii) : bool :=
  let n := nat_of_ascii c in
  (Nat.leb 9 n && Nat.leb n 13) || (Nat.leb 28 n && Nat.leb n 32).

Fixpoint ascii_lstrip (s : string) : string :=
  match s with
  | EmptyString => EmptyString
  | String c s' => if is_space c then ascii_lstrip s' else s
  end.

Fixpoint ascii_rstrip (s : string) : string :=
  match s with
  | EmptyString => EmptyString
  | String c s' =>
      match ascii_rstrip s' with
      | EmptyString => if is_space c then EmptyString else String c EmptyString
      | r => String c r
      end
  end.

Definition ascii_strip (s : string) : string := ascii_rstrip (ascii_lstrip s).

(** [s.split(sep)] for a one-character separator; [cur] holds the piece
    being read, reversed. *)
Fixpoint rev_string (acc s : string) : string :=
  match s with
  | EmptyString => acc
  | String c s' => rev_string (String c acc) s'
  end.

Fixpoint split_on (sep : ascii) (cur : string) (s : string) : list string :=
  match s with
  | EmptyString => [rev_string "" cur]
  | String c s' =>
      if Ascii.eqb c sep then rev_string "" cur :: split_on sep "" s'
      else split_on sep (String c cur) s'
  end.

Definition py_split (sep : ascii) (v : value) : exn + value :=
  match v with
  | VStr s => inr (VList (map VStr (split_on sep "" s)))
  | _ => inl AttributeError
  end.

(** *** Reading a request: one and two levels deep *)

Definition lookup1 (k : string) (v : value) : option value :=
  match v with VDict d => dict_get k d | _ => None end.

Definition lookup2 (k1 k2 : string) (v : value) : option value :=
  match lookup1 k1 v with Some x => lookup1 k2 x | None => None end.

Definition has_key (k : string) (v : value) : bool :=
  match lookup1 k v with Some _ => true | None => false end.

(** *** Nested updates: [r[k1][k2] = x], [r[k1].pop(k2)], [r[k1][k2].append(x)]

    The inner dictionary is shared with the outer one, so the update is
    written back under the same key. *)

Definition setitem2 (r : value) (k1 k2 : string) (x : value) : exn + value :=
  match py_getitem r k1 with
  | inl e => inl e
  | inr inner =>
      match py_setitem inner k2 x with
      | inl e => inl e
      | inr inner' => py_setitem r k1 inner'
      end
  end.

Definition pop2 (r : value) (k1 k2 : string) : exn + value :=
  match py_getitem r k1 with
  | inl e => inl e
  | inr inner =>
      match py_pop inner k2 with
      | inl e => inl e
      | inr inner' => py_setitem r k1 inner'
      end
  end.

Definition append1 (r : value) (k : string) (x : value) : exn + value :=
  match py_getitem r k with
  | inl e => inl e
  | inr l =>
      match py_append l x with
      | inl e => inl e
      | inr l' => py_setitem r k l'
      end
  end.

Definition append2 (r : value) (k1 k2 : string) (x : value) : exn + value :=
  match py_getitem r k1 with
  | inl e => inl e
  | inr inner =>
      match append1 inner k2 x with
      | inl e => inl e
      | inr inner' => py_setitem r k1 inner'
      end
  end.

(* ================================================================== *)
(** ** The world a component runs in *)
(* ================================================================== *)

Inductive level : Type := ERROR | WARNING | INFO.

Definition log_record : Type := (level * string)%type.

(** Calls that leave the process, oldest first in a trace. *)
Inductive call : Type :=
| CreateTrainingJob (request : value)
| DescribeTrainingJob (name : value)
| DescribeAlgorithm (name : value)
| StopTrainingJob (name : value)
| PrintCloudwatchLogs (group : string) (stream : value).

Record world : Type := mkWorld {
  _training_job_name : option value;   (* self._training_job_name, unset before Do *)
  outputs : dict;                      (* spec.outputs *)
  records : list log_record;           (* what the logging module was given *)
  calls : list call;                   (* remote calls issued so far *)
  now : string                         (* the clock, as a rendered timestamp *)
}.

Definition M (A : Type) : Type := world -> (exn + A) * world.

Definition ret {A : Type} (a : A) : M A := fun w => (inr a, w).

Definition bind {A B : Type} (m : M A) (f : A -> M B) : M B :=
  fun w =>
    match m w with
    | (inr a, w') => f a w'
    | (inl e, w') => (inl e, w')
    end.

Definition raise {A : Type} (e : exn) : M A := fun w => (inl e, w).

Definition lift {A : Type} (r : exn + A) : M A := fun w => (r, w).

Declare Scope component_scope.
Delimit Scope component_scope with M.
Notation "x <- m ;; k" := (bind m (fun x => k))
  (at level 61, m at next level, right associativity) : component_scope.
Notation "m ;; k" := (bind m (fun _ => k))
  (at level 61, right associativity) : component_scope.
Open Scope component_scope.

Definition add_records (l : list log_record) (w : world) : world :=
  mkWorld (_training_job_name w) (outputs w) (records w ++ l) (calls w) (now w).

Definition add_call (c : call) (w : world) : world :=
  mkWorld (_training_job_name w) (outputs w) (records w) (calls w ++ [c]) (now w).

(** What [logging.error] and [logging.warning] do where the name [logging]
    is bound to the standard module: a record is appended.  The component
    reaches it through [module_logging], which reads the name first. *)
Definition logging (lvl : level) (msg : string) : M unit :=
  fun w => (inr tt, add_records [(lvl, msg)] w).

(** [self._training_job_name] *)
Definition self_training_job_name : M value :=
  fun w =>
    match _training_job_name w with
    | Some v => (inr v, w)
    | None => (inl AttributeError, w)
    end.


(** [spec.outputs[k] = v] *)
Definition set_output (k : string) (v : value) : M unit :=
  fun w =>
    (inr tt,
     mkWorld (_training_job_name w) (dict_set k v (outputs w)) (records w)
       (calls w) (now w)).

Fixpoint for_each {A : Type} (l : list A) (body : A -> value -> exn + value)
  (request : value) : exn + value :=
  match l with
  | [] => inr request
  | a :: l' =>
      match body a request with
      | inl e => inl e
      | inr request' => for_each l' body request'
      end
  end.

(** The status tuple the classifier builds; a field the call site does not
    pass is [None] here (the tuple's own default applies). *)
Record SageMakerJobStatus : Type := mkStatus {
  is_completed : bool;
  has_error : option bool;
  error_message : option value
}.

(** What [sagemaker_training_component.py] takes from outside itself: the
    base class of common.sagemaker_component, two built-in string methods,
    the names the module uses without binding them, and the boto3 client.

    The module imports only [Dict], [Type], [SageMakerTrainingSpec],
    [SageMakerComponent], [ComponentMetadata] and [SageMakerJobStatus]
    (lines 14-21).  It also reads [logging], [built_in_algos],
    [get_image_uri] and [job_name], which it binds nowhere: reading one
    raises NameError.  Each is a field here, unbound ([false], [None]) for
    the module as it stands; a bound one is what an import would give.

    A client's answer may depend on the calls made before it. *)
Class Environment : Type := {
  (* SageMakerComponent *)
  _get_request_template : string -> value;
  _create_hyperparameters : value -> exn + value;
  _enable_spot_instance_support :
    value -> dict -> (exn + value) * list log_record;
  super_Do : dict -> M unit;
  (* str.lower, str.strip *)
  str_lower : string -> string;
  str_strip : string -> string;
  (* free names of the module *)
  logging_bound : bool;
  built_in_algos : option (list (string * string));
  get_image_uri : option (value -> string -> exn + value);
  job_name : option value;
  (* self._sm_client *)
  sm_create_training_job : list call -> value -> exn + unit;
  sm_describe_training_job : list call -> value -> exn + value;
  sm_describe_algorithm : list call -> value -> exn + value;
  sm_stop_training_job : list call -> value -> exn + unit
}.

Fixpoint assoc (k : string) (l : list (string * string)) : option string :=
  match l with
  | [] => None
  | (k', v) :: l' => if String.eqb k k' then Some v else assoc k l'
  end.

Definition in_values (v : string) (l : list (string * string)) : bool :=
  existsb (String.eqb v) (map snd l).

(* ================================================================== *)
(** ** SageMakerTrainingComponent *)
(* ================================================================== *)

Section Component.

Context {env : Environment}.




(** *** The boto3 client and the log printer of the base class *)

Definition create_training_job (request : value) : M unit :=
  fun w =>
    (sm_create_training_job (calls w) request,
     add_call (CreateTrainingJob request) w).

Definition describe_training_job (name : value) : M value :=
  fun w =>
    (sm_describe_training_job (calls w) name,
     add_call (DescribeTrainingJob name) w).

Definition describe_algorithm (name : value) : M value :=
  fun w =>
    (sm_describe_algorithm (calls w) name,
     add_call (DescribeAlgorithm name) w).

Definition stop_training_job (name : value) : M unit :=
  fun w =>
    (sm_stop_training_job (calls w) name, add_call (StopTrainingJob name) w).

Definition _print_cloudwatch_logs (group : string) (stream : value) : M unit :=
  fun w => (inr tt, add_call (PrintCloudwatchLogs group stream) w).

(** The free name [job_name] of the module. *)
Definition global_job_name : M value :=
  match job_name with
  | Some v => ret v
  | None => raise (NameError "job_name")
  end.

(** The free names [built_in_algos] and [get_image_uri]. *)
Definition global_built_in_algos : M (list (string * string)) :=
  match built_in_algos with
  | Some algos => ret algos
  | None => raise (NameError "built_in_algos")
  end.

Definition global_get_image_uri : M (value -> string -> exn + value) :=
  match get_image_uri with
  | Some f => ret f
  | None => raise (NameError "get_image_uri")
  end.

(** [logging.error(msg)], [logging.warning(msg)]: the name [logging] is read
    first. *)
Definition module_logging (lvl : level) (msg : string) : M unit :=
  if logging_bound then logging lvl msg else raise (NameError "logging").

(** [v.lower()]; the result is a [str]. *)
Definition py_lower (v : value) : exn + string :=
  match v with VStr s => inr (str_lower s) | _ => inl AttributeError end.

(** *** Status classifier *)

Definition _get_job_status : M SageMakerJobStatus :=
  name <- self_training_job_name ;;
  response <- describe_training_job name ;;
  status <- lift (py_getitem response "TrainingJobStatus") ;;
  if is_str "Completed" status then
    ret (mkStatus true (Some false) None)
  else if is_str "Failed" status then
    message <- lift (py_getitem response "FailureReason") ;;
    ret (mkStatus true (Some true) (Some message))
  else
    ret (mkStatus false None None).

(** *** Output extractor *)

Definition _get_model_artifacts_from_job : M value :=
  name <- self_training_job_name ;;
  info <- describe_training_job name ;;
  artifacts <- lift (py_getitem info "ModelArtifacts") ;;
  lift (py_getitem artifacts "S3ModelArtifacts").

Definition _get_image_from_job : M value :=
  name <- self_training_job_name ;;
  info <- describe_training_job name ;;
  algorithm_specification <- lift (py_getitem info "AlgorithmSpecification") ;;
  has_image <- lift (py_contains "TrainingImage" algorithm_specification) ;;
  if has_image : bool then
    lift (py_getitem algorithm_specification "TrainingImage")
  else
    algorithm_name <- lift (py_getitem algorithm_specification "AlgorithmName") ;;
    algorithm <- describe_algorithm algorithm_name ;;
    training_specification <- lift (py_getitem algorithm "TrainingSpecification") ;;
    lift (py_getitem training_specification "TrainingImage").

Definition _after_job_complete : M unit :=
  name <- self_training_job_name ;;
  set_output "job_name" name ;;
  url <- _get_model_artifacts_from_job ;;
  set_output "model_artifact_url" url ;;
  image <- _get_image_from_job ;;
  set_output "training_image" image.

(** *** Termination and log hooks *)

Definition _on_job_terminated : M unit :=
  name <- global_job_name ;;
  stop_training_job name.

Definition _print_logs_for_job : M unit :=
  name <- global_job_name ;;
  _print_cloudwatch_logs "/aws/sagemaker/TrainingJobs" name.

(** *** Request builder

    [_create_job_request] is one Python function; it is cut here at its own
    [###] comments, one definition per block, and put together again in
    [_create_job_request] below. *)

(** Lines 73-82: template, name, role, hyperparameters, input mode. *)
Definition set_job_fields (inputs : dict) : M value :=
  let request := _get_request_template "train" in
  name <- self_training_job_name ;;
  request <- lift (py_setitem request "TrainingJobName" name) ;;
  request <- lift (py_setitem request "RoleArn" (get "role" inputs)) ;;
  hyperparameters <- lift (_create_hyperparameters (get "hyperparameters" inputs)) ;;
  request <- lift (py_setitem request "HyperParameters" hyperparameters) ;;
  lift (setitem2 request "AlgorithmSpecification" "TrainingInputMode"
          (get "training_input_mode" inputs)).

(** Lines 84-122: training image or algorithm resource name. *)
Definition update_training_image (inputs : dict) (request : value) : M value :=
  (if negb (truthy (get "image" inputs))
      && negb (truthy (get "algorithm_name" inputs))
   then
     module_logging ERROR "Please specify training image or algorithm name." ;;
     raise (Exception "Could not create job request")
   else ret tt) ;;
  (if truthy (get "image" inputs) && truthy (get "algorithm_name" inputs)
   then
     module_logging ERROR
       "Both image and algorithm name inputted, only one should be specified. Proceeding with image."
   else ret tt) ;;
  if truthy (get "image" inputs) then
    request <- lift (setitem2 request "AlgorithmSpecification" "TrainingImage"
                       (get "image" inputs)) ;;
    lift (pop2 request "AlgorithmSpecification" "AlgorithmName")
  else
    lowered <- lift (py_lower (get "algorithm_name" inputs)) ;;
    let algo_name := str_strip lowered in
    algos <- global_built_in_algos ;;
    match assoc algo_name algos with
    | Some canonical =>
        resolve <- global_get_image_uri ;;
        image <- lift (resolve (get "region" inputs) canonical) ;;
        request <- lift (setitem2 request "AlgorithmSpecification"
                           "TrainingImage" image) ;;
        request <- lift (pop2 request "AlgorithmSpecification" "AlgorithmName") ;;
        module_logging WARNING
          "Algorithm name is found as an Amazon built-in algorithm. Using built-in algorithm." ;;
        ret request
    | None =>
        if in_values algo_name algos then
          resolve <- global_get_image_uri ;;
          image <- lift (resolve (get "region" inputs) algo_name) ;;
          request <- lift (setitem2 request "AlgorithmSpecification"
                             "TrainingImage" image) ;;
          request <- lift (pop2 request "AlgorithmSpecification" "AlgorithmName") ;;
          module_logging WARNING
            "Algorithm name is found as an Amazon built-in algorithm. Using built-in algorithm." ;;
          ret request
        else
          request <- lift (setitem2 request "AlgorithmSpecification"
                             "AlgorithmName" (get "algorithm_name" inputs)) ;;
          lift (pop2 request "AlgorithmSpecification" "TrainingImage")
    end.

(** Lines 124-131: metric definitions. *)
Definition update_metric_definitions (inputs : dict) (request : value) : M value :=
  if truthy (get "metric_definitions" inputs) then
    items <- lift (py_items (get "metric_definitions" inputs)) ;;
    lift (for_each items
            (fun kv request =>
               append2 request "AlgorithmSpecification" "MetricDefinitions"
                 (VDict [("Name", VStr (fst kv)); ("Regex", snd kv)]))
            request)
  else
    lift (pop2 request "AlgorithmSpecification" "MetricDefinitions").

(** Lines 133-140: VPC configuration. *)
Definition update_vpc_config (inputs : dict) (request : value) : M value :=
  if truthy (get "vpc_security_group_ids" inputs)
     && truthy (get "vpc_subnets" inputs)
  then
    groups <- lift (py_split "," (get "vpc_security_group_ids" inputs)) ;;
    request <- lift (setitem2 request "VpcConfig" "SecurityGroupIds" groups) ;;
    subnets <- lift (py_split "," (get "vpc_subnets" inputs)) ;;
    lift (setitem2 request "VpcConfig" "Subnets" subnets)
  else
    lift (py_pop request "VpcConfig").

(** Lines 142-147: input channels. *)
Definition update_input_channels (inputs : dict) (request : value) : M value :=
  n <- lift (py_len (get "channels" inputs)) ;;
  if Z.ltb 0 n then
    lift (py_setitem request "InputDataConfig" (get "channels" inputs))
  else
    module_logging ERROR "Must specify at least one input channel." ;;
    raise (Exception "Could not create job request").

(** Lines 149-162: output location, instance type, keys, network flags. *)
Definition update_output_and_resources (inputs : dict) (request : value) : M value :=
  request <- lift (setitem2 request "OutputDataConfig" "S3OutputPath"
                     (get "model_artifact_path" inputs)) ;;
  request <- lift (setitem2 request "OutputDataConfig" "KmsKeyId"
                     (get "output_encryption_key" inputs)) ;;
  request <- lift (setitem2 request "ResourceConfig" "InstanceType"
                     (get "instance_type" inputs)) ;;
  request <- lift (setitem2 request "ResourceConfig" "VolumeKmsKeyId"
                     (get "resource_encryption_key" inputs)) ;;
  request <- lift (py_setitem request "EnableNetworkIsolation"
                     (get "network_isolation" inputs)) ;;
  lift (py_setitem request "EnableInterContainerTrafficEncryption"
          (get "traffic_encryption" inputs)).

(** Lines 164-176: instance count, volume size, maximum run time. *)
Definition update_numeric_overrides (inputs : dict) (request : value) : M value :=
  request <- (if truthy (get "instance_count" inputs)
              then lift (setitem2 request "ResourceConfig" "InstanceCount"
                           (get "instance_count" inputs))
              else ret request) ;;
  request <- (if truthy (get "volume_size" inputs)
              then lift (setitem2 request "ResourceConfig" "VolumeSizeInGB"
                           (get "volume_size" inputs))
              else ret request) ;;
  if truthy (get "max_run_time" inputs)
  then lift (setitem2 request "StoppingCondition" "MaxRuntimeInSeconds"
               (get "max_run_time" inputs))
  else ret request.

(** Line 178: the base class's spot-instance helper, which logs and may raise. *)
Definition enable_spot_instance_support (inputs : dict) (request : value) : M value :=
  fun w =>
    let (result, emitted) := _enable_spot_instance_support request inputs in
    (result, add_records emitted w).

(** Lines 180-181: tags. *)
Definition append_tags (inputs : dict) (request : value) : M value :=
  items <- lift (py_items (get_or (VDict []) "tags" inputs)) ;;
  lift (for_each items
          (fun kv request =>
             append1 request "Tags"
               (VDict [("Key", VStr (fst kv)); ("Value", snd kv)]))
          request).

Definition _create_job_request (inputs : dict) : M value :=
  request <- set_job_fields inputs ;;
  request <- update_training_image inputs request ;;
  request <- update_metric_definitions inputs request ;;
  request <- update_vpc_config inputs request ;;
  request <- update_input_channels inputs request ;;
  request <- update_output_and_resources inputs request ;;
  request <- update_numeric_overrides inputs request ;;
  request <- enable_spot_instance_support inputs request ;;
  append_tags inputs request.

(** [create_training_job] is called with [**request]: unpacking needs a
    mapping. *)
Definition _submit_job_request (request : value) : M unit :=
  match request with
  | VDict _ => create_training_job request
  | _ => raise TypeError
  end.

(** Modelled from the spec: the first transition of the base orchestrator
    (common.sagemaker_component is not among the sources), section 4.2,
    Created to Submitted: the request is built, then submitted. *)
Definition create_and_submit (inputs : dict) : M unit :=
  request <- _create_job_request inputs ;;
  _submit_job_request request.

End Component.

(* ================================================================== *)
(** ** A concrete environment

    Used to run the model on explicit inputs. *)
(* ================================================================== *)

(** Modelled from the spec: the request template is a data file of the
    repository that is not among the sources.  It holds the blocks section 3
    lists for a JobRequest, under the keys [_create_job_request] reads, pops
    or appends to, with placeholder values and the service defaults. *)
Definition train_template : value :=
  VDict
    [ ("TrainingJobName", VStr "");
      ("HyperParameters", VDict []);
      ("AlgorithmSpecification",
        VDict [ ("TrainingImage", VStr ""); ("AlgorithmName", VStr "");
                ("TrainingInputMode", VStr ""); ("MetricDefinitions", VList []) ]);
      ("RoleArn", VStr "");
      ("InputDataConfig", VList []);
      ("OutputDataConfig", VDict [ ("KmsKeyId", VStr ""); ("S3OutputPath", VStr "") ]);
      ("ResourceConfig",
        VDict [ ("InstanceType", VStr ""); ("InstanceCount", VInt 1);
                ("VolumeSizeInGB", VInt 1); ("VolumeKmsKeyId", VStr "") ]);
      ("StoppingCondition",
        VDict [ ("MaxRuntimeInSeconds", VInt 86400);
                ("MaxWaitTimeInSeconds", VInt 86400) ]);
      ("CheckpointConfig", VDict [ ("S3Uri", VStr ""); ("LocalPath", VStr "") ]);
      ("VpcConfig", VDict [ ("SecurityGroupIds", VList []); ("Subnets", VList []) ]);
      ("EnableNetworkIsolation", VBool true);
      ("EnableInterContainerTrafficEncryption", VBool false);
      ("EnableManagedSpotTraining", VBool false);
      ("Tags", VList []) ].

(** Modelled from the spec: [_enable_spot_instance_support] of the base class
    (section 4.1): when spot training is requested it adds the managed-spot
    flag and the checkpoint configuration and needs a maximum wait time,
    whose absence is a validation error. *)
Definition spot_support (request : value) (inputs : dict)
  : (exn + value) * list log_record :=
  if truthy (get "spot_instance" inputs) then
    if truthy (get "max_wait_time" inputs) then
      (match py_setitem request "EnableManagedSpotTraining"
               (get "spot_instance" inputs) with
       | inl e => inl e
       | inr request =>
           match setitem2 request "StoppingCondition" "MaxWaitTimeInSeconds"
                   (get "max_wait_time" inputs) with
           | inl e => inl e
           | inr request =>
               py_setitem request "CheckpointConfig"
                 (get "checkpoint_config" inputs)
           end
       end, [])
    else
      (inl (Exception "Could not create job request"),
       [(ERROR, "Spot training needs a maximum wait time.")])
  else (inr request, []).

(** A finished job as the service describes it. *)
Definition completed_job : value :=
  VDict
    [ ("TrainingJobStatus", VStr "Completed");
      ("ModelArtifacts", VDict [ ("S3ModelArtifacts", VStr "s3://bucket/model.tar.gz") ]);
      ("AlgorithmSpecification", VDict [ ("TrainingImage", VStr "registry/image:1") ]) ].

Definition failed_job : value :=
  VDict
    [ ("TrainingJobStatus", VStr "Failed");
      ("FailureReason", VStr "OutOfMemory") ].

(** The module as it stands, with [logging], [built_in_algos] and
    [get_image_uri] unbound, in front of a service that describes every job
    as [job]; [global_name] is what a module-level [job_name] would hold. *)
Definition sample_env (job : value) (global_name : option value) : Environment :=
  {| _get_request_template := fun _ => train_template;
     _create_hyperparameters := fun h => inr h;
     _enable_spot_instance_support := spot_support;
     super_Do := fun _ => ret tt;
     str_lower := ascii_lower;
     str_strip := ascii_strip;
     logging_bound := false;
     built_in_algos := None;
     get_image_uri := None;
     job_name := global_name;
     sm_create_training_job := fun _ _ => inr tt;
     sm_describe_training_job := fun _ _ => inr job;
     sm_describe_algorithm :=
       fun _ _ =>
         inr (VDict [ ("TrainingSpecification",
                       VDict [ ("TrainingImage", VStr "registry/algo:2") ]) ]);
     sm_stop_training_job := fun _ _ => inr tt |}.



Definition named_world (name : string) : world :=
  mkWorld (Some (VStr name)) [] [] [] "20200101000000".

(** A well-formed spec: an image, one channel, nothing optional. *)
Definition minimal_inputs : dict :=
  [ ("role", VStr "arn:aws:iam::1:role/r");
    ("image", VStr "registry/image:1");
    ("channels", VList [ VDict [ ("ChannelName", VStr "train") ] ]) ].

Definition one_channel : value :=
  VList [ VDict [ ("ChannelName", VStr "train") ] ].

(** A finished job that was created from an algorithm resource. *)
Definition completed_algorithm_job : value :=
  VDict
    [ ("TrainingJobStatus", VStr "Completed");
      ("ModelArtifacts", VDict [ ("S3ModelArtifacts", VStr "s3://bucket/model.tar.gz") ]);
      ("AlgorithmSpecification", VDict [ ("AlgorithmName", VStr "my-algorithm") ]) ].

Definition default_env : Environment := sample_env completed_job None.

(** Inputs that give both an image and an algorithm name. *)
Definition both_inputs : dict :=
  [ ("image", VStr "registry/image:1");
    ("algorithm_name", VStr "xgboost");
    ("channels", VList [ VDict [ ("ChannelName", VStr "train") ] ]) ].

(** Inputs that give neither. *)
Definition neither_inputs : dict :=
  [ ("role", VStr "arn:aws:iam::1:role/r");
    ("channels", VList [ VDict [ ("ChannelName", VStr "train") ] ]) ].

Definition empty_channels_inputs : dict :=
  [ ("image", VStr "registry/image:1"); ("channels", VList []) ].

Definition absent_channels_inputs : dict :=
  [ ("image", VStr "registry/image:1") ].

Definition only_role_inputs : dict :=
  [ ("role", VStr "arn:aws:iam::1:role/r") ].

Definition builtin_by_name_inputs : dict :=
  [ ("algorithm_name", VStr " XGBoost "); ("region", VStr "us-east-1");
    ("channels", one_channel) ].

Definition custom_algorithm_inputs : dict :=
  [ ("algorithm_name", VStr "My-Algo"); ("region", VStr "us-east-1");
    ("channels", one_channel) ].

Definition full_inputs : dict :=
  [ ("image", VStr "registry/image:1");
    ("channels", one_channel);
    ("metric_definitions", VDict [ ("loss", VStr "loss=(.*)") ]);
    ("vpc_security_group_ids", VStr "sg-1,sg-2");
    ("vpc_subnets", VStr "subnet-1");
    ("output_encryption_key", VStr "key-1");
    ("instance_count", VInt 4);
    ("volume_size", VInt 0);
    ("tags", VDict [ ("team", VStr "ml") ]) ].

Definition plain_inputs : dict :=
  [ ("image", VStr "registry/image:1");
    ("channels", one_channel);
    ("role", VStr "arn:aws:iam::1:role/r");
    ("hyperparameters", VDict [ ("epochs", VStr "5") ]);
    ("training_input_mode", VStr "File");
    ("model_artifact_path", VStr "s3://bucket/out");
    ("instance_type", VStr "ml.m5.large");
    ("network_isolation", VBool true);
    ("traffic_encryption", VBool false) ].

(** A template with one more block than the builder knows of. *)
Definition extended_template : value :=
  match train_template with
  | VDict d => VDict (d ++ [ ("RetryStrategy", VDict [ ("MaximumRetryAttempts", VInt 2) ]) ])
  | t => t
  end.

Definition extended_env : Environment :=
  {| _get_request_template := fun _ => extended_template;
     _create_hyperparameters := fun h => inr h;
     _enable_spot_instance_support := spot_support;
     super_Do := fun _ => ret tt;
     str_lower := ascii_lower;
     str_strip := ascii_strip;
     logging_bound := false;
     built_in_algos := None;
     get_image_uri := None;
     job_name := None;
     sm_create_training_job := fun _ _ => inr tt;
     sm_describe_training_job := fun _ _ => inr completed_job;
     sm_describe_algorithm := fun _ _ => inl (Exception "ValidationException");
     sm_stop_training_job := fun _ _ => inr tt |}.

(** A service whose first describe call answers and whose later ones fail,
    and whose algorithm registry fails. *)
Definition flaky_env (first : exn + value) : Environment :=
  {| _get_request_template := fun _ => train_template;
     _create_hyperparameters := fun h => inr h;
     _enable_spot_instance_support := spot_support;
     super_Do := fun _ => ret tt;
     str_lower := ascii_lower;
     str_strip := ascii_strip;
     logging_bound := false;
     built_in_algos := None;
     get_image_uri := None;
     job_name := None;
     sm_create_training_job := fun _ _ => inr tt;
     sm_describe_training_job :=
       fun history _ =>
         match history with
         | [] => first
         | _ => inl (Exception "ThrottlingException")
         end;
     sm_describe_algorithm := fun _ _ => inl (Exception "ValidationException");
     sm_stop_training_job := fun _ _ => inr tt |}.

Definition failed_without_reason : value :=
  VDict [ ("TrainingJobStatus", VStr "Failed") ].

Definition job_without_selection : value :=
  VDict
    [ ("TrainingJobStatus", VStr "Completed");
      ("ModelArtifacts", VDict [ ("S3ModelArtifacts", VStr "s3://bucket/model.tar.gz") ]);
      ("AlgorithmSpecification", VDict [ ("TrainingInputMode", VStr "File") ]) ].

Definition world_with_outputs (name : string) (o : dict) : world :=
  mkWorld (Some (VStr name)) o [] [] "20200101000000".

(** Spot training asked for, with and without the wait time the helper
    needs. *)
Definition spot_inputs : dict :=
  [ ("image", VStr "registry/image:1"); ("channels", one_channel);
    ("spot_instance", VBool true); ("max_wait_time", VInt 3600);
    ("checkpoint_config", VDict [ ("S3Uri", VStr "s3://bucket/checkpoints") ]) ].

Definition spot_without_wait_inputs : dict :=
  [ ("image", VStr "registry/image:1"); ("channels", one_channel);
    ("spot_instance", VBool true) ].

Definition none_tags_inputs : dict :=
  [ ("image", VStr "registry/image:1"); ("channels", one_channel);
    ("tags", VNone) ].

(* ================================================================== *)
(** ** Vocabulary of the statements *)
(* ================================================================== *)

(** A key a step writes: a whole top-level entry, or one entry of a nested
    dictionary. *)
Definition touch : Type := (string * option string)%type.

Definition untouched1 (T : list touch) (a : string) : bool :=
  forallb (fun t => negb (String.eqb (fst t) a)) T.

Definition untouched2 (T : list touch) (a b : string) : bool :=
  forallb
    (fun t =>
       negb (String.eqb (fst t) a)
       || match snd t with
          | Some b' => negb (String.eqb b' b)
          | None => false
          end)
    T.

(** [r'] reads like [r] everywhere outside [T]. *)
Definition same_outside (T : list touch) (r r' : value) : Prop :=
  (forall a, untouched1 T a = true -> lookup1 a r' = lookup1 a r)
  /\ (forall a b, untouched2 T a b = true -> lookup2 a b r' = lookup2 a b r).

(** The world changed by log records only. *)
Definition only_logs (w w' : world) : Prop :=
  exists l, w' = add_records l w.

(** What the spot-instance helper may write. *)
Definition spot_touched : list touch :=
  [ ("EnableManagedSpotTraining", None); ("CheckpointConfig", None);
    ("StoppingCondition", Some "MaxWaitTimeInSeconds") ].

Definition spot_frame {env : Environment} : Prop :=
  forall request inputs request' emitted,
    _enable_spot_instance_support request inputs = (inr request', emitted) ->
    same_outside spot_touched request request'.

Definition is_some {A : Type} (o : option A) : bool :=
  match o with Some _ => true | None => false end.

Definition is_list (o : option value) : bool :=
  match o with Some (VList _) => true | _ => false end.

Definition is_dict (o : option value) : bool :=
  match o with Some (VDict _) => true | _ => false end.

(** The shape of the template that the first four blocks of the builder
    rely on. *)
Definition template_ok (t : value) : bool :=
  is_some (lookup2 "AlgorithmSpecification" "TrainingImage" t)
  && is_some (lookup2 "AlgorithmSpecification" "AlgorithmName" t)
  && is_list (lookup2 "AlgorithmSpecification" "MetricDefinitions" t)
  && is_dict (lookup1 "VpcConfig" t).

Definition none_or_str (v : value) : bool :=
  match v with VNone | VStr _ => true | _ => false end.

Definition none_or_dict (v : value) : bool :=
  match v with VNone | VDict _ => true | _ => false end.

Definition none_or_list (v : value) : bool :=
  match v with VNone | VList _ => true | _ => false end.

(** Modelled from the spec: the input types that [SageMakerTrainingSpec]
    declares (train/src/sagemaker_training_spec.py is not among the
    sources), for the inputs whose methods the builder calls; section 6
    names them: algorithm name and VPC settings are text, metric definitions
    a mapping, channels a sequence. An input left out reads as [None]. *)
Definition inputs_typed (inputs : dict) : bool :=
  none_or_str (get "algorithm_name" inputs)
  && none_or_dict (get "metric_definitions" inputs)
  && none_or_str (get "vpc_security_group_ids" inputs)
  && none_or_str (get "vpc_subnets" inputs)
  && none_or_list (get "channels" inputs).

Definition metric_entry (kv : string * value) : value :=
  VDict [("Name", VStr (fst kv)); ("Regex", snd kv)].

Definition tag_entry (kv : string * value) : value :=
  VDict [("Key", VStr (fst kv)); ("Value", snd kv)].

(** A computation that leaves the world as it found it. *)
Definition quiet {A : Type} (m : M A) : Prop :=
  forall w res w', m w = (res, w') -> w' = w.

Definition logs_only {A : Type} (m : M A) : Prop :=
  forall w res w', m w = (res, w') -> only_logs w w'.

Definition job_fields_touched : list touch :=
  [ ("TrainingJobName", None); ("RoleArn", None); ("HyperParameters", None);
    ("AlgorithmSpecification", Some "TrainingInputMode") ].

Definition training_image_touched : list touch :=
  [ ("AlgorithmSpecification", Some "TrainingImage");
    ("AlgorithmSpecification", Some "AlgorithmName") ].

Definition vpc_touched : list touch :=
  [ ("VpcConfig", None); ("VpcConfig", Some "SecurityGroupIds");
    ("VpcConfig", Some "Subnets") ].

Definition output_touched : list touch :=
  [ ("OutputDataConfig", Some "S3OutputPath");
    ("OutputDataConfig", Some "KmsKeyId");
    ("ResourceConfig", Some "InstanceType");
    ("ResourceConfig", Some "VolumeKmsKeyId");
    ("EnableNetworkIsolation", None);
    ("EnableInterContainerTrafficEncryption", None) ].

Definition overrides_touched : list touch :=
  [ ("ResourceConfig", Some "InstanceCount");
    ("ResourceConfig", Some "VolumeSizeInGB");
    ("StoppingCondition", Some "MaxRuntimeInSeconds") ].

(** What an override leaves under its key: the input when it is truthy, what
    was there before otherwise. *)
Definition overridden (input : value) (before : option value) : option value :=
  if truthy input then Some input else before.

(** The blocks that follow the channel check. *)
Definition after_channels {env : Environment} (inputs : dict) (request : value) : M value :=
  request <- update_output_and_resources inputs request ;;
  request <- update_numeric_overrides inputs request ;;
  request <- enable_spot_instance_support inputs request ;;
  append_tags inputs request.


Definition with_output (k : string) (v : value) (w : world) : world :=
  mkWorld (_training_job_name w) (dict_set k v (outputs w)) (records w)
    (calls w) (now w).

(** The hooks the base orchestrator calls on the component. *)
Inductive hook : Type :=
| CreateJobRequest (inputs : dict)
| SubmitJobRequest (request : value)
| GetJobStatus
| AfterJobComplete
| OnJobTerminated
| PrintLogsForJob.

Definition world_after {A : Type} (m : M A) (w : world) : world := snd (m w).

Definition call_hook {env : Environment} (h : hook) (w : world) : world :=
  match h with
  | CreateJobRequest inputs => world_after (_create_job_request inputs) w
  | SubmitJobRequest request => world_after (_submit_job_request request) w
  | GetJobStatus => world_after _get_job_status w
  | AfterJobComplete => world_after _after_job_complete w
  | OnJobTerminated => world_after _on_job_terminated w
  | PrintLogsForJob => world_after _print_logs_for_job w
  end.

(** Any sequence of hook calls, whatever each one returns. *)
Definition call_hooks {env : Environment} (hs : list hook) (w : world) : world :=
  fold_left (fun w h => call_hook h w) hs w.


(** Every entry [_create_job_request] writes, with those left to the
    spot-instance helper. *)
Definition builder_touched : list touch :=
  job_fields_touched ++ training_image_touched
  ++ [("AlgorithmSpecification", Some "MetricDefinitions")]
  ++ vpc_touched ++ [("InputDataConfig", None)]
  ++ output_touched ++ overrides_touched ++ spot_touched
  ++ [("Tags", None)].

(** The shape of the template that the whole builder relies on. *)
Definition template_complete (t : value) : bool :=
  template_ok t
  && is_dict (lookup1 "OutputDataConfig" t)
  && is_dict (lookup1 "ResourceConfig" t)
  && is_dict (lookup1 "StoppingCondition" t)
  && is_list (lookup1 "Tags" t).

(** [spec.inputs.get("tags", {})] is a dictionary: the key is absent or
    holds one. *)
Definition tags_typed (inputs : dict) : bool :=
  match get_or (VDict []) "tags" inputs with VDict _ => true | _ => false end.

(** The spot-instance helper raises nothing for these inputs, on a request
    that holds the StoppingCondition block the builder hands it. *)
Definition spot_accepts {env : Environment} (inputs : dict) : Prop :=
  forall request,
    is_dict (lookup1 "StoppingCondition" request) = true ->
    exists request' emitted,
      _enable_spot_instance_support request inputs = (inr request', emitted).

(** No piece produced by a split holds the separator. *)
Fixpoint has_char (c : ascii) (s : string) : bool :=
  match s with
  | EmptyString => false
  | String c' s' => Ascii.eqb c' c || has_char c s'
  end.

Definition str_values (l : list string) : value := VList (map VStr l).

(** Every run of [m] relates the world before to the world after. *)
Definition respects {A : Type} (R : world -> world -> Prop) (m : M A) : Prop :=
  forall w res w', m w = (res, w') -> R w w'.

Definition outputs_kept (w w' : world) : Prop := outputs w' = outputs w.

(** The keys [_after_job_complete] writes. *)
Definition output_keys : list string :=
  [ "job_name"; "model_artifact_url"; "training_image" ].

Definition outputs_kept_outside (keys : list string) (w w' : world) : Prop :=
  forall k,
    existsb (String.eqb k) keys = false ->
    dict_get k (outputs w') = dict_get k (outputs w).

Definition writes_outputs (h : hook) : bool :=
  match h with AfterJobComplete => true | _ => false end.

Definition is_describe (c : call) : bool :=
  match c with
  | DescribeTrainingJob _ | DescribeAlgorithm _ => true
  | _ => false
  end.

(** The calls made from [w] to [w'] only read from the service. *)
Definition only_describes (w w' : world) : Prop :=
  exists l, calls w' = (calls w ++ l)%list /\ forallb is_describe l = true.

Definition is_str_value (v : value) : bool :=
  match v with VStr _ => true | _ => false end.

Definition is_dict_value (v : value) : bool :=
  match v with VDict _ => true | _ => false end.

(* ================================================================== *)
(** ** Dictionaries and nested updates *)
(* ================================================================== *)

Lemma dict_get_set_same (k : string) (v : value) (d : dict) :
  dict_get k (dict_set k v d) = Some v.
Proof.
  induction d as [|[k' v'] d IH]; simpl.
  - now rewrite String.eqb_refl.
  - destruct (String.eqb k k') eqn:E; simpl.
    + now rewrite String.eqb_refl.
    + now rewrite E.
Qed.

Lemma dict_get_set_other (k a : string) (v : value) (d : dict) :
  String.eqb k a = false -> dict_get a (dict_set k v d) = dict_get a d.
Proof.
  intros Hka. induction d as [|[k' v'] d IH]; simpl.
  - rewrite String.eqb_sym. now rewrite Hka.
  - destruct (String.eqb k k') eqn:E; simpl.
    + apply String.eqb_eq in E. subst k'.
      rewrite String.eqb_sym. now rewrite Hka.
    + now rewrite IH.
Qed.

Lemma dict_get_del_same (k : string) (d : dict) :
  dict_get k (dict_del k d) = None.
Proof.
  induction d as [|[k' v'] d IH]; simpl; [reflexivity|].
  destruct (String.eqb k k') eqn:E; simpl; [assumption|].
  now rewrite E.
Qed.

Lemma dict_get_del_other (k a : string) (d : dict) :
  String.eqb k a = false -> dict_get a (dict_del k d) = dict_get a d.
Proof.
  intros Hka. induction d as [|[k' v'] d IH]; simpl; [reflexivity|].
  destruct (String.eqb k k') eqn:E; simpl.
  - apply String.eqb_eq in E. subst k'.
    rewrite String.eqb_sym. now rewrite Hka.
  - now rewrite IH.
Qed.

Lemma same_outside_refl (T : list touch) (r : value) : same_outside T r r.
Proof. split; reflexivity. Qed.

Lemma same_outside_trans (T1 T2 : list touch) (r1 r2 r3 : value) :
  same_outside T1 r1 r2 -> same_outside T2 r2 r3 ->
  same_outside (T1 ++ T2) r1 r3.
Proof.
  intros [H1 H1'] [H2 H2']. split.
  - intros a Ha. unfold untouched1 in Ha. rewrite forallb_app in Ha.
    apply andb_true_iff in Ha as [Ha1 Ha2].
    rewrite (H2 a Ha2). now apply H1.
  - intros a b Hab. unfold untouched2 in Hab. rewrite forallb_app in Hab.
    apply andb_true_iff in Hab as [Hab1 Hab2].
    rewrite (H2' a b Hab2). now apply H1'.
Qed.

Lemma same_outside_mono (T T' : list touch) (r r' : value) :
  incl T T' -> same_outside T r r' -> same_outside T' r r'.
Proof.
  intros Hin [H1 H2]. split.
  - intros a Ha. apply H1. unfold untouched1 in *.
    rewrite forallb_forall in *. intros t Ht. apply Ha, Hin, Ht.
  - intros a b Hab. apply H2. unfold untouched2 in *.
    rewrite forallb_forall in *. intros t Ht. apply Hab, Hin, Ht.
Qed.

(** Writing a top-level entry. *)
Lemma same_outside_top (k : string) (d d' : dict) :
  (forall a, String.eqb k a = false -> dict_get a d' = dict_get a d) ->
  same_outside [(k, None)] (VDict d) (VDict d').
Proof.
  intros H. split.
  - intros a Ha. simpl in Ha. rewrite andb_true_r in Ha. apply negb_true_iff in Ha. simpl. now apply H.
  - intros a b Hab. simpl in Hab. rewrite orb_false_r, andb_true_r in Hab.
    apply negb_true_iff in Hab. unfold lookup2. simpl. now rewrite H.
Qed.

(** Writing one entry of a nested dictionary and storing it back. *)
Lemma same_outside_nested (k1 k2 : string) (d i i' : dict) :
  dict_get k1 d = Some (VDict i) ->
  (forall b, String.eqb k2 b = false -> dict_get b i' = dict_get b i) ->
  same_outside [(k1, Some k2)] (VDict d) (VDict (dict_set k1 (VDict i') d)).
Proof.
  intros Hd Hi. split.
  - intros a Ha. simpl in Ha. rewrite andb_true_r in Ha.
    apply negb_true_iff in Ha. simpl. now apply dict_get_set_other.
  - intros a b Hab. simpl in Hab. rewrite andb_true_r in Hab.
    unfold lookup2. simpl.
    destruct (String.eqb k1 a) eqn:E.
    + apply String.eqb_eq in E. subst a. simpl in Hab.
      apply negb_true_iff in Hab.
      rewrite dict_get_set_same, Hd. simpl. now apply Hi.
    + now rewrite dict_get_set_other.
Qed.

Lemma py_setitem_same_outside (r r' : value) (k : string) (x : value) :
  py_setitem r k x = inr r' -> same_outside [(k, None)] r r'.
Proof.
  destruct r; simpl; try discriminate. intros H. injection H as <-.
  apply same_outside_top. intros a Ha. now apply dict_get_set_other.
Qed.

Lemma py_setitem_lookup1 (r r' : value) (k : string) (x : value) :
  py_setitem r k x = inr r' -> lookup1 k r' = Some x.
Proof.
  destruct r; simpl; try discriminate. intros H. injection H as <-.
  simpl. apply dict_get_set_same.
Qed.

Lemma py_pop_same_outside (r r' : value) (k : string) :
  py_pop r k = inr r' -> same_outside [(k, None)] r r'.
Proof.
  destruct r; simpl; try discriminate.
  destruct (dict_get k d); try discriminate. intros H. injection H as <-.
  apply same_outside_top. intros a Ha. now apply dict_get_del_other.
Qed.

Lemma py_pop_lookup1 (r r' : value) (k : string) :
  py_pop r k = inr r' -> lookup1 k r' = None.
Proof.
  destruct r; simpl; try discriminate.
  destruct (dict_get k d); try discriminate. intros H. injection H as <-.
  simpl. apply dict_get_del_same.
Qed.

Lemma setitem2_same_outside (r r' : value) (k1 k2 : string) (x : value) :
  setitem2 r k1 k2 x = inr r' -> same_outside [(k1, Some k2)] r r'.
Proof.
  unfold setitem2. destruct r; simpl; try discriminate.
  destruct (dict_get k1 d) as [inner|] eqn:Hd; try discriminate.
  destruct inner; simpl; try discriminate. intros H. injection H as <-.
  eapply same_outside_nested; [eassumption|].
  intros b Hb. now apply dict_get_set_other.
Qed.

Lemma setitem2_lookup2 (r r' : value) (k1 k2 : string) (x : value) :
  setitem2 r k1 k2 x = inr r' -> lookup2 k1 k2 r' = Some x.
Proof.
  unfold setitem2. destruct r; simpl; try discriminate.
  destruct (dict_get k1 d) as [inner|] eqn:Hd; try discriminate.
  destruct inner; simpl; try discriminate. intros H. injection H as <-.
  unfold lookup2. simpl. rewrite dict_get_set_same. simpl.
  apply dict_get_set_same.
Qed.

Lemma pop2_same_outside (r r' : value) (k1 k2 : string) :
  pop2 r k1 k2 = inr r' -> same_outside [(k1, Some k2)] r r'.
Proof.
  unfold pop2. destruct r; simpl; try discriminate.
  destruct (dict_get k1 d) as [inner|] eqn:Hd; try discriminate.
  destruct inner; simpl; try discriminate.
  destruct (dict_get k2 d0); try discriminate. intros H. injection H as <-.
  eapply same_outside_nested; [eassumption|].
  intros b Hb. now apply dict_get_del_other.
Qed.

Lemma pop2_lookup2 (r r' : value) (k1 k2 : string) :
  pop2 r k1 k2 = inr r' -> lookup2 k1 k2 r' = None.
Proof.
  unfold pop2. destruct r; simpl; try discriminate.
  destruct (dict_get k1 d) as [inner|] eqn:Hd; try discriminate.
  destruct inner; simpl; try discriminate.
  destruct (dict_get k2 d0); try discriminate. intros H. injection H as <-.
  unfold lookup2. simpl. rewrite dict_get_set_same. simpl.
  apply dict_get_del_same.
Qed.

Lemma append1_same_outside (r r' : value) (k : string) (x : value) :
  append1 r k x = inr r' -> same_outside [(k, None)] r r'.
Proof.
  unfold append1. destruct r; simpl; try discriminate.
  destruct (dict_get k d) as [l|]; try discriminate.
  destruct l; simpl; try discriminate. intros H. injection H as <-.
  apply same_outside_top. intros a Ha. now apply dict_get_set_other.
Qed.

Lemma append1_lookup1 (r r' : value) (k : string) (x : value) :
  append1 r k x = inr r' ->
  exists l, lookup1 k r = Some (VList l) /\ lookup1 k r' = Some (VList (l ++ [x])).
Proof.
  unfold append1. destruct r; simpl; try discriminate.
  destruct (dict_get k d) as [l|]; try discriminate.
  destruct l; simpl; try discriminate. intros H. injection H as <-.
  eexists. split; [reflexivity|]. simpl. apply dict_get_set_same.
Qed.

Lemma append2_same_outside (r r' : value) (k1 k2 : string) (x : value) :
  append2 r k1 k2 x = inr r' -> same_outside [(k1, Some k2)] r r'.
Proof.
  unfold append2. destruct r; simpl; try discriminate.
  destruct (dict_get k1 d) as [inner|] eqn:Hd; try discriminate.
  destruct (append1 inner k2 x) as [|inner'] eqn:Ha; try discriminate.
  simpl. intros H. injection H as <-.
  unfold append1 in Ha. destruct inner; simpl in Ha; try discriminate.
  destruct (dict_get k2 d0) as [l|]; try discriminate.
  destruct l; simpl in Ha; try discriminate. injection Ha as <-.
  eapply same_outside_nested; [eassumption|].
  intros b Hb. now apply dict_get_set_other.
Qed.

Lemma append2_lookup2 (r r' : value) (k1 k2 : string) (x : value) :
  append2 r k1 k2 x = inr r' ->
  exists l,
    lookup2 k1 k2 r = Some (VList l) /\ lookup2 k1 k2 r' = Some (VList (l ++ [x])).
Proof.
  unfold append2. destruct r; simpl; try discriminate.
  destruct (dict_get k1 d) as [inner|] eqn:Hd; try discriminate.
  destruct (append1 inner k2 x) as [|inner'] eqn:Ha; try discriminate.
  simpl. intros H. injection H as <-.
  apply append1_lookup1 in Ha as (l & Hl & Hl').
  exists l. unfold lookup2. simpl. rewrite Hd, dict_get_set_same. now split.
Qed.

(* ================================================================== *)
(** ** Running the monad backwards *)
(* ================================================================== *)

Lemma bind_inr {A B : Type} (m : M A) (f : A -> M B) (w w' : world) (b : B) :
  bind m f w = (inr b, w') ->
  exists a w1, m w = (inr a, w1) /\ f a w1 = (inr b, w').
Proof.
  unfold bind. destruct (m w) as [[e|a] w1]; [discriminate|].
  intros H. now exists a, w1.
Qed.

Lemma bind_fails {A B : Type} (m : M A) (f : A -> M B) (w w' : world) (e : exn) :
  m w = (inl e, w') -> bind m f w = (inl e, w').
Proof. unfold bind. now intros ->. Qed.

Lemma bind_continues {A B : Type} (m : M A) (f : A -> M B) (w w1 : world) (a : A) :
  m w = (inr a, w1) -> bind m f w = f a w1.
Proof. unfold bind. now intros ->. Qed.

Lemma lift_inr {A : Type} (r : exn + A) (w w' : world) (a : A) :
  lift r w = (inr a, w') -> r = inr a /\ w' = w.
Proof. unfold lift. intros H. now injection H as -> ->. Qed.

Lemma ret_inr {A : Type} (a b : A) (w w' : world) :
  ret a w = (inr b, w') -> b = a /\ w' = w.
Proof. unfold ret. intros H. now injection H as -> ->. Qed.

Lemma logging_inr (lvl : level) (msg : string) (w w' : world) (u : unit) :
  logging lvl msg w = (inr u, w') -> w' = add_records [(lvl, msg)] w.
Proof. unfold logging. intros H. now injection H as _ <-. Qed.

Lemma self_name_inr (w w' : world) (v : value) :
  self_training_job_name w = (inr v, w') ->
  _training_job_name w = Some v /\ w' = w.
Proof.
  unfold self_training_job_name. destruct (_training_job_name w); [|discriminate].
  intros H. now injection H as -> ->.
Qed.

Section ModuleNames.

Context {env : Environment}.

Lemma module_logging_inr (lvl : level) (msg : string) (w w' : world) (u : unit) :
  module_logging lvl msg w = (inr u, w') ->
  logging_bound = true /\ w' = add_records [(lvl, msg)] w.
Proof.
  unfold module_logging. destruct logging_bound; [|discriminate].
  intros H. apply logging_inr in H. now split.
Qed.

Lemma global_built_in_algos_inr (w w' : world) (algos : list (string * string)) :
  global_built_in_algos w = (inr algos, w') ->
  built_in_algos = Some algos /\ w' = w.
Proof.
  unfold global_built_in_algos. destruct built_in_algos; [|discriminate].
  intros H. now injection H as -> ->.
Qed.

Lemma global_get_image_uri_inr (w w' : world)
  (resolve : value -> string -> exn + value) :
  global_get_image_uri w = (inr resolve, w') ->
  get_image_uri = Some resolve /\ w' = w.
Proof.
  unfold global_get_image_uri. destruct get_image_uri; [|discriminate].
  intros H. now injection H as -> ->.
Qed.

End ModuleNames.

(** One step of inversion on a successful run. *)
Ltac run_inv :=
  match goal with
  | H : bind _ _ _ = (inr _, _) |- _ =>
      apply bind_inr in H; destruct H as (? & ? & ? & H)
  | H : module_logging _ _ _ = (inr _, _) |- _ =>
      apply module_logging_inr in H; destruct H as [? ?]; subst
  | H : global_built_in_algos _ = (inr _, _) |- _ =>
      apply global_built_in_algos_inr in H; destruct H as [? ?]; subst
  | H : global_get_image_uri _ = (inr _, _) |- _ =>
      apply global_get_image_uri_inr in H; destruct H as [? ?]; subst
  | H : lift _ _ = (inr _, _) |- _ =>
      apply lift_inr in H; destruct H as [H ?]; subst
  | H : ret _ _ = (inr _, _) |- _ =>
      apply ret_inr in H; destruct H as [? ?]; subst
  | H : raise _ _ = (inr _, _) |- _ => discriminate H
  | H : logging _ _ _ = (inr _, _) |- _ => apply logging_inr in H; subst
  | H : self_training_job_name _ = (inr _, _) |- _ =>
      apply self_name_inr in H; destruct H as [H ?]; subst
  end.

(** *** Computations that only log *)

Lemma only_logs_refl (w : world) : only_logs w w.
Proof. exists []. destruct w. unfold add_records. simpl. now rewrite app_nil_r. Qed.

Lemma only_logs_trans (w1 w2 w3 : world) :
  only_logs w1 w2 -> only_logs w2 w3 -> only_logs w1 w3.
Proof.
  intros [l1 ->] [l2 ->]. exists (l1 ++ l2)%list.
  unfold add_records. simpl. now rewrite app_assoc.
Qed.

Lemma only_logs_calls (w w' : world) : only_logs w w' -> calls w' = calls w.
Proof. now intros [l ->]. Qed.

Lemma only_logs_outputs (w w' : world) : only_logs w w' -> outputs w' = outputs w.
Proof. now intros [l ->]. Qed.


Lemma logs_only_ret {A : Type} (a : A) : logs_only (ret a).
Proof. intros w res w' H. injection H as _ <-. apply only_logs_refl. Qed.

Lemma logs_only_raise {A : Type} (e : exn) : logs_only (@raise A e).
Proof. intros w res w' H. injection H as _ <-. apply only_logs_refl. Qed.

Lemma logs_only_lift {A : Type} (r : exn + A) : logs_only (lift r).
Proof. intros w res w' H. injection H as _ <-. apply only_logs_refl. Qed.

Lemma logs_only_logging (lvl : level) (msg : string) : logs_only (logging lvl msg).
Proof. intros w res w' H. injection H as _ <-. now exists [(lvl, msg)]. Qed.

Lemma logs_only_self_name : logs_only self_training_job_name.
Proof.
  intros w res w'. unfold self_training_job_name.
  destruct (_training_job_name w); intros H; injection H as _ <-;
    apply only_logs_refl.
Qed.

Lemma logs_only_bind {A B : Type} (m : M A) (f : A -> M B) :
  logs_only m -> (forall a, logs_only (f a)) -> logs_only (bind m f).
Proof.
  intros Hm Hf w res w'. unfold bind.
  destruct (m w) as [[e|a] w1] eqn:E.
  - intros H. injection H as _ <-. eapply Hm, E.
  - intros H. eapply only_logs_trans; [eapply Hm, E | eapply Hf, H].
Qed.

Lemma logs_only_if {A : Type} (b : bool) (m1 m2 : M A) :
  logs_only m1 -> logs_only m2 -> logs_only (if b then m1 else m2).
Proof. now destruct b. Qed.

Section ModuleNamesLog.

Context {env : Environment}.

Lemma logs_only_module_logging (lvl : level) (msg : string) :
  logs_only (module_logging lvl msg).
Proof.
  unfold module_logging. destruct logging_bound.
  - apply logs_only_logging.
  - apply logs_only_raise.
Qed.

Lemma logs_only_built_in_algos : logs_only global_built_in_algos.
Proof.
  unfold global_built_in_algos. destruct built_in_algos.
  - apply logs_only_ret.
  - apply logs_only_raise.
Qed.

Lemma logs_only_get_image_uri : logs_only global_get_image_uri.
Proof.
  unfold global_get_image_uri. destruct get_image_uri.
  - apply logs_only_ret.
  - apply logs_only_raise.
Qed.

End ModuleNamesLog.

Create HintDb logs.
#[local] Hint Resolve logs_only_ret logs_only_raise logs_only_lift
  logs_only_logging logs_only_self_name logs_only_if
  logs_only_module_logging logs_only_built_in_algos
  logs_only_get_image_uri : logs.

Ltac logs_only_tac :=
  repeat first
    [ progress cbv zeta
    | apply logs_only_bind; [|intros ?]
    | apply logs_only_if
    | solve [auto with logs]
    | match goal with
      | |- logs_only (match ?x with _ => _ end) => destruct x
      end ].

(** Turning each successful primitive into what it wrote and what it kept. *)
Ltac facts :=
  repeat match goal with
  | H : py_setitem _ _ _ = inr _ |- _ =>
      pose proof (py_setitem_same_outside _ _ _ _ H);
      apply py_setitem_lookup1 in H
  | H : py_pop _ _ = inr _ |- _ =>
      pose proof (py_pop_same_outside _ _ _ H);
      apply py_pop_lookup1 in H
  | H : setitem2 _ _ _ _ = inr _ |- _ =>
      pose proof (setitem2_same_outside _ _ _ _ _ H);
      apply setitem2_lookup2 in H
  | H : pop2 _ _ _ = inr _ |- _ =>
      pose proof (pop2_same_outside _ _ _ _ H);
      apply pop2_lookup2 in H
  end.

(** Following a read back through the steps that did not write it. *)
Ltac chase :=
  repeat match goal with
  | H : same_outside _ ?r ?r' |- context [lookup1 ?a ?r'] =>
      rewrite (proj1 H a eq_refl)
  | H : same_outside _ ?r ?r' |- context [lookup2 ?a ?b ?r'] =>
      rewrite (proj2 H a b eq_refl)
  end.

Ltac chain :=
  repeat (eapply same_outside_trans; [eassumption|]);
  apply (same_outside_refl []).

Ltac frame :=
  eapply same_outside_mono; cycle 1;
  [ chain | intros ? ?; simpl in *; tauto ].

Section BuilderBlocks.

Context {env : Environment}.

Lemma set_job_fields_inv (inputs : dict) (w w' : world) (r : value) :
  set_job_fields inputs w = (inr r, w') ->
  w' = w
  /\ same_outside job_fields_touched (_get_request_template "train") r
  /\ exists name,
       _training_job_name w = Some name
       /\ lookup1 "TrainingJobName" r = Some name.
Proof.
  unfold set_job_fields. intros H. repeat run_inv. facts.
  split; [reflexivity|]. split.
  - unfold job_fields_touched. frame.
  - eexists. split; [eassumption|]. chase. assumption.
Qed.

Lemma update_training_image_inv (inputs : dict) (r r' : value) (w w' : world) :
  update_training_image inputs r w = (inr r', w') ->
  same_outside training_image_touched r r'
  /\ (truthy (get "image" inputs) = true ->
      lookup2 "AlgorithmSpecification" "TrainingImage" r'
        = Some (get "image" inputs)
      /\ lookup2 "AlgorithmSpecification" "AlgorithmName" r' = None
      /\ (truthy (get "algorithm_name" inputs) = true -> logging_bound = true))
  /\ (truthy (get "image" inputs) = false ->
      exists s algos,
        get "algorithm_name" inputs = VStr s
        /\ truthy (VStr s) = true
        /\ built_in_algos = Some algos
        /\ ((exists image,
               lookup2 "AlgorithmSpecification" "TrainingImage" r' = Some image
               /\ lookup2 "AlgorithmSpecification" "AlgorithmName" r' = None
               /\ logging_bound = true)
            \/ (lookup2 "AlgorithmSpecification" "AlgorithmName" r'
                  = Some (VStr s)
                /\ lookup2 "AlgorithmSpecification" "TrainingImage" r' = None)))
  /\ (logging_bound = false -> w' = w).
Proof.
  unfold update_training_image. intros H.
  destruct (truthy (get "image" inputs)) eqn:Hi; simpl in H.
  - (* an image is given *)
    destruct (truthy (get "algorithm_name" inputs)) eqn:Ha; simpl in H;
      repeat run_inv; facts.
    + split; [unfold training_image_touched; frame|].
      split; [|split; [discriminate|congruence]]. intros _.
      split; [chase; assumption|]. split; [assumption|]. intros _. assumption.
    + split; [unfold training_image_touched; frame|].
      split; [|split; [discriminate|reflexivity]]. intros _.
      split; [chase; assumption|]. split; [assumption|]. discriminate.
  - (* no image *)
    destruct (truthy (get "algorithm_name" inputs)) eqn:Ha; simpl in H;
      [|repeat run_inv].
    repeat run_inv.
    match goal with Hl : py_lower _ = inr _ |- _ => rename Hl into Hlow end.
    destruct (get "algorithm_name" inputs) as [| | |s| |] eqn:Hn;
      simpl in Hlow; try discriminate.
    injection Hlow as <-.
    match goal with Hb : built_in_algos = Some ?a |- _ => rename a into algos end.
    destruct (assoc (str_strip (str_lower s)) algos) as [canonical|];
      [|destruct (in_values (str_strip (str_lower s)) algos)];
      repeat run_inv; facts;
      (split; [unfold training_image_touched; frame|]);
      (split; [discriminate|]);
      (split; [|congruence]); intros _;
      exists s, algos; (split; [reflexivity|]); (split; [assumption|]);
      (split; [assumption|]).
    + left. eexists. split; [chase; eassumption|]. now split.
    + left. eexists. split; [chase; eassumption|]. now split.
    + right. split; [chase; assumption | assumption].
Qed.

Lemma same_outside_idem (T : list touch) (r1 r2 r3 : value) :
  same_outside T r1 r2 -> same_outside T r2 r3 -> same_outside T r1 r3.
Proof.
  intros H1 H2. eapply same_outside_mono; [|eapply same_outside_trans; eassumption].
  intros t Ht. apply in_app_or in Ht. tauto.
Qed.

Lemma for_each_append2 (k1 k2 : string) (f : string * value -> value)
  (items : dict) (r r' : value) :
  for_each items (fun kv request => append2 request k1 k2 (f kv)) r = inr r' ->
  same_outside [(k1, Some k2)] r r'
  /\ (items = [] -> r' = r)
  /\ (items <> [] ->
      exists l,
        lookup2 k1 k2 r = Some (VList l)
        /\ lookup2 k1 k2 r' = Some (VList (l ++ map f items))).
Proof.
  revert r. induction items as [|kv items IH]; intros r; simpl.
  - intros H. injection H as <-.
    split; [apply same_outside_refl|]. split; [reflexivity|congruence].
  - destruct (append2 r k1 k2 (f kv)) as [e|r1] eqn:E; [discriminate|].
    intros H. apply IH in H as (Hf & Hnil & Hcons).
    pose proof (append2_same_outside _ _ _ _ _ E) as Hf1.
    apply append2_lookup2 in E as (l & Hl & Hl1).
    split; [eapply same_outside_idem; eassumption|].
    split; [discriminate|]. intros _. exists l. split; [assumption|].
    destruct items as [|kv' items'].
    + rewrite (Hnil eq_refl). assumption.
    + destruct Hcons as (l' & Hl' & Hr'); [discriminate|].
      rewrite Hl1 in Hl'. injection Hl' as <-.
      rewrite Hr'. now rewrite <- app_assoc.
Qed.

Lemma for_each_append1 (k : string) (f : string * value -> value)
  (items : dict) (r r' : value) :
  for_each items (fun kv request => append1 request k (f kv)) r = inr r' ->
  same_outside [(k, None)] r r'
  /\ (items = [] -> r' = r)
  /\ (items <> [] ->
      exists l,
        lookup1 k r = Some (VList l)
        /\ lookup1 k r' = Some (VList (l ++ map f items))).
Proof.
  revert r. induction items as [|kv items IH]; intros r; simpl.
  - intros H. injection H as <-.
    split; [apply same_outside_refl|]. split; [reflexivity|congruence].
  - destruct (append1 r k (f kv)) as [e|r1] eqn:E; [discriminate|].
    intros H. apply IH in H as (Hf & Hnil & Hcons).
    pose proof (append1_same_outside _ _ _ _ E) as Hf1.
    apply append1_lookup1 in E as (l & Hl & Hl1).
    split; [eapply same_outside_idem; eassumption|].
    split; [discriminate|]. intros _. exists l. split; [assumption|].
    destruct items as [|kv' items'].
    + rewrite (Hnil eq_refl). assumption.
    + destruct Hcons as (l' & Hl' & Hr'); [discriminate|].
      rewrite Hl1 in Hl'. injection Hl' as <-.
      rewrite Hr'. now rewrite <- app_assoc.
Qed.

Lemma update_metric_definitions_inv (inputs : dict) (r r' : value) (w w' : world) :
  update_metric_definitions inputs r w = (inr r', w') ->
  w' = w
  /\ same_outside [("AlgorithmSpecification", Some "MetricDefinitions")] r r'
  /\ (truthy (get "metric_definitions" inputs) = false ->
      lookup2 "AlgorithmSpecification" "MetricDefinitions" r' = None)
  /\ (truthy (get "metric_definitions" inputs) = true ->
      exists items l,
        get "metric_definitions" inputs = VDict items
        /\ lookup2 "AlgorithmSpecification" "MetricDefinitions" r = Some (VList l)
        /\ lookup2 "AlgorithmSpecification" "MetricDefinitions" r'
           = Some (VList (l ++ map metric_entry items))).
Proof.
  unfold update_metric_definitions. intros H.
  destruct (truthy (get "metric_definitions" inputs)) eqn:Hm.
  - repeat run_inv.
    match goal with Hi : py_items _ = inr _ |- _ => rename Hi into Hitems end.
    destruct (get "metric_definitions" inputs) as [| | | | |items];
      simpl in Hitems; try discriminate.
    injection Hitems as <-.
    apply for_each_append2 in H as (Hf & _ & Hcons).
    split; [reflexivity|]. split; [assumption|]. split; [discriminate|].
    intros _. destruct Hcons as (l & Hl & Hl').
    + destruct items; [discriminate Hm|discriminate].
    + now exists items, l.
  - repeat run_inv. facts. split; [reflexivity|]. split; [assumption|].
    split; [now intros _|discriminate].
Qed.

Lemma update_vpc_config_inv (inputs : dict) (r r' : value) (w w' : world) :
  update_vpc_config inputs r w = (inr r', w') ->
  w' = w
  /\ same_outside vpc_touched r r'
  /\ (truthy (get "vpc_security_group_ids" inputs)
      && truthy (get "vpc_subnets" inputs) = false ->
      lookup1 "VpcConfig" r' = None)
  /\ (truthy (get "vpc_security_group_ids" inputs)
      && truthy (get "vpc_subnets" inputs) = true ->
      exists groups subnets,
        py_split "," (get "vpc_security_group_ids" inputs) = inr groups
        /\ py_split "," (get "vpc_subnets" inputs) = inr subnets
        /\ lookup2 "VpcConfig" "SecurityGroupIds" r' = Some groups
        /\ lookup2 "VpcConfig" "Subnets" r' = Some subnets).
Proof.
  unfold update_vpc_config. intros H.
  destruct (truthy (get "vpc_security_group_ids" inputs)
            && truthy (get "vpc_subnets" inputs)) eqn:Hv.
  - repeat run_inv.
    match goal with
    | H1 : py_split _ (get "vpc_security_group_ids" _) = inr ?g,
      H2 : py_split _ (get "vpc_subnets" _) = inr ?s |- _ =>
        rename H1 into Hg; rename H2 into Hs
    end.
    facts. split; [reflexivity|]. split; [unfold vpc_touched; frame|].
    split; [discriminate|]. intros _. do 2 eexists.
    split; [exact Hg|]. split; [exact Hs|].
    split; [chase; assumption|assumption].
  - repeat run_inv. facts. split; [reflexivity|].
    split; [unfold vpc_touched; frame|]. split; [now intros _|discriminate].
Qed.

Lemma update_input_channels_inv (inputs : dict) (r r' : value) (w w' : world) :
  update_input_channels inputs r w = (inr r', w') ->
  w' = w
  /\ same_outside [("InputDataConfig", None)] r r'
  /\ lookup1 "InputDataConfig" r' = Some (get "channels" inputs)
  /\ exists n, py_len (get "channels" inputs) = inr n /\ (0 < n)%Z.
Proof.
  unfold update_input_channels. intros H. run_inv. run_inv.
  destruct (Z.ltb 0 x) eqn:Hn; repeat run_inv. facts.
  split; [reflexivity|]. split; [assumption|]. split; [assumption|].
  exists x. split; [assumption|]. now apply Z.ltb_lt.
Qed.

Lemma update_output_and_resources_inv (inputs : dict) (r r' : value) (w w' : world) :
  update_output_and_resources inputs r w = (inr r', w') ->
  w' = w
  /\ same_outside output_touched r r'
  /\ lookup2 "OutputDataConfig" "KmsKeyId" r'
     = Some (get "output_encryption_key" inputs)
  /\ lookup2 "ResourceConfig" "VolumeKmsKeyId" r'
     = Some (get "resource_encryption_key" inputs).
Proof.
  unfold update_output_and_resources. intros H. repeat run_inv. facts.
  split; [reflexivity|]. split; [unfold output_touched; frame|].
  split; chase; assumption.
Qed.

Lemma update_numeric_overrides_inv (inputs : dict) (r r' : value) (w w' : world) :
  update_numeric_overrides inputs r w = (inr r', w') ->
  w' = w
  /\ same_outside overrides_touched r r'
  /\ lookup2 "ResourceConfig" "InstanceCount" r'
     = overridden (get "instance_count" inputs)
         (lookup2 "ResourceConfig" "InstanceCount" r)
  /\ lookup2 "ResourceConfig" "VolumeSizeInGB" r'
     = overridden (get "volume_size" inputs)
         (lookup2 "ResourceConfig" "VolumeSizeInGB" r)
  /\ lookup2 "StoppingCondition" "MaxRuntimeInSeconds" r'
     = overridden (get "max_run_time" inputs)
         (lookup2 "StoppingCondition" "MaxRuntimeInSeconds" r).
Proof.
  unfold update_numeric_overrides, overridden. intros H.
  destruct (truthy (get "instance_count" inputs));
    destruct (truthy (get "volume_size" inputs));
    destruct (truthy (get "max_run_time" inputs));
    repeat run_inv; facts;
    (split; [reflexivity|]);
    (split; [unfold overrides_touched; frame|]);
    repeat split; chase; solve [assumption | reflexivity].
Qed.

Lemma enable_spot_instance_support_inv (inputs : dict) (r r' : value) (w w' : world) :
  spot_frame ->
  enable_spot_instance_support inputs r w = (inr r', w') ->
  only_logs w w' /\ same_outside spot_touched r r'.
Proof.
  unfold enable_spot_instance_support. intros Hspot H.
  destruct (_enable_spot_instance_support r inputs) as [res emitted] eqn:E.
  injection H as -> <-. split; [now exists emitted|]. eapply Hspot, E.
Qed.

Lemma append_tags_inv (inputs : dict) (r r' : value) (w w' : world) :
  append_tags inputs r w = (inr r', w') ->
  w' = w
  /\ same_outside [("Tags", None)] r r'
  /\ exists items,
       get_or (VDict []) "tags" inputs = VDict items
       /\ (items = [] -> r' = r)
       /\ (items <> [] ->
           exists l,
             lookup1 "Tags" r = Some (VList l)
             /\ lookup1 "Tags" r' = Some (VList (l ++ map tag_entry items))).
Proof.
  unfold append_tags. intros H. repeat run_inv.
  match goal with Hi : py_items _ = inr _ |- _ => rename Hi into Hitems end.
  destruct (get_or (VDict []) "tags" inputs) as [| | | | |items];
    simpl in Hitems; try discriminate.
  injection Hitems as <-.
  apply for_each_append1 in H as (Hf & Hnil & Hcons).
  split; [reflexivity|]. split; [assumption|]. now exists items.
Qed.

Lemma logs_only_update_training_image (inputs : dict) (r : value)
  (w w' : world) (res : exn + value) :
  update_training_image inputs r w = (res, w') -> only_logs w w'.
Proof.
  revert w res w'. change (logs_only (update_training_image inputs r)).
  unfold update_training_image. logs_only_tac.
Qed.

(** *** The builder never leaves the process *)

Lemma create_job_request_logs_only (inputs : dict) :
  logs_only (_create_job_request inputs).
Proof.
  unfold _create_job_request, set_job_fields, update_training_image,
    update_metric_definitions, update_vpc_config, update_input_channels,
    update_output_and_resources, update_numeric_overrides, append_tags.
  logs_only_tac.
  intros w res w'. unfold enable_spot_instance_support.
  destruct (_enable_spot_instance_support _ inputs) as [r emitted].
  intros H. injection H as _ <-. now exists emitted.
Qed.

End BuilderBlocks.

(** Inversion of a successful [_create_job_request], block by block. *)
Ltac builder_inv Hspot :=
  repeat match goal with
  | H : _create_job_request _ _ = (inr _, _) |- _ =>
      unfold _create_job_request in H
  | H : bind _ _ _ = (inr _, _) |- _ =>
      apply bind_inr in H; destruct H as (? & ? & ? & H)
  end;
  repeat match goal with
  | H : set_job_fields _ _ = (inr _, _) |- _ =>
      apply set_job_fields_inv in H; destruct H as (? & ? & ? & ? & ?)
  | H : update_training_image _ _ _ = (inr _, _) |- _ =>
      pose proof (logs_only_update_training_image _ _ _ _ _ H);
      apply update_training_image_inv in H; destruct H as (? & ? & ? & ?)
  | H : update_metric_definitions _ _ _ = (inr _, _) |- _ =>
      apply update_metric_definitions_inv in H; destruct H as (? & ? & ? & ?)
  | H : update_vpc_config _ _ _ = (inr _, _) |- _ =>
      apply update_vpc_config_inv in H; destruct H as (? & ? & ? & ?)
  | H : update_input_channels _ _ _ = (inr _, _) |- _ =>
      apply update_input_channels_inv in H; destruct H as (? & ? & ? & ?)
  | H : update_output_and_resources _ _ _ = (inr _, _) |- _ =>
      apply update_output_and_resources_inv in H; destruct H as (? & ? & ? & ?)
  | H : update_numeric_overrides _ _ _ = (inr _, _) |- _ =>
      apply update_numeric_overrides_inv in H;
      destruct H as (? & ? & ? & ? & ?)
  | H : enable_spot_instance_support _ _ _ = (inr _, _) |- _ =>
      apply (enable_spot_instance_support_inv _ _ _ _ _ Hspot) in H;
      destruct H as (? & ?)
  | H : append_tags _ _ _ = (inr _, _) |- _ =>
      apply append_tags_inv in H; destruct H as (? & ? & ?)
  end;
  subst.

(* ================================================================== *)
(** ** When the blocks go through *)
(* ================================================================== *)

Lemma lookup2_is_dict (k1 k2 : string) (r : value) :
  is_some (lookup2 k1 k2 r) = true -> is_dict (lookup1 k1 r) = true.
Proof.
  unfold lookup2. destruct (lookup1 k1 r) as [x|]; [|discriminate].
  destruct x; simpl; try discriminate. reflexivity.
Qed.

Lemma is_list_is_some (o : option value) : is_list o = true -> is_some o = true.
Proof. destruct o as [v|]; [|discriminate]. reflexivity. Qed.

Lemma py_setitem_ok (r : value) (k a : string) (x : value) :
  is_some (lookup1 a r) = true -> exists r', py_setitem r k x = inr r'.
Proof. destruct r; simpl; try discriminate. intros _. eauto. Qed.

Lemma setitem2_ok (r : value) (k1 k2 : string) (x : value) :
  is_dict (lookup1 k1 r) = true -> exists r', setitem2 r k1 k2 x = inr r'.
Proof.
  unfold setitem2. destruct r; simpl; try discriminate.
  destruct (dict_get k1 d) as [inner|]; [|discriminate].
  destruct inner; simpl; try discriminate. intros _. eauto.
Qed.

Lemma pop2_ok (r : value) (k1 k2 : string) :
  is_some (lookup2 k1 k2 r) = true -> exists r', pop2 r k1 k2 = inr r'.
Proof.
  unfold pop2, lookup2. destruct r; simpl; try discriminate.
  destruct (dict_get k1 d) as [inner|]; [|discriminate].
  destruct inner; simpl; try discriminate.
  destruct (dict_get k2 d0); [|discriminate]. intros _. simpl. eauto.
Qed.

Lemma py_pop_ok (r : value) (k : string) :
  is_some (lookup1 k r) = true -> exists r', py_pop r k = inr r'.
Proof.
  destruct r; simpl; try discriminate.
  destruct (dict_get k d); [|discriminate]. intros _. eauto.
Qed.

Lemma append2_ok (r : value) (k1 k2 : string) (x : value) :
  is_list (lookup2 k1 k2 r) = true -> exists r', append2 r k1 k2 x = inr r'.
Proof.
  unfold append2, append1, lookup2. destruct r; simpl; try discriminate.
  destruct (dict_get k1 d) as [inner|]; [|discriminate].
  destruct inner; simpl; try discriminate.
  destruct (dict_get k2 d0) as [l|]; [|discriminate].
  destruct l; simpl; try discriminate. intros _. eauto.
Qed.

Lemma for_each_append2_ok (k1 k2 : string) (f : string * value -> value)
  (items : dict) (r : value) :
  is_list (lookup2 k1 k2 r) = true ->
  exists r', for_each items (fun kv request => append2 request k1 k2 (f kv)) r = inr r'.
Proof.
  revert r. induction items as [|kv items IH]; intros r Hl; simpl.
  - eauto.
  - destruct (append2_ok r k1 k2 (f kv) Hl) as [r1 E]. rewrite E.
    apply IH. apply append2_lookup2 in E as (l & _ & ->). reflexivity.
Qed.

Section Progress.

Context {env : Environment}.

Lemma set_job_fields_ok (inputs : dict) (w : world) (name hp : value) :
  _training_job_name w = Some name ->
  _create_hyperparameters (get "hyperparameters" inputs) = inr hp ->
  template_ok (_get_request_template "train") = true ->
  exists r, set_job_fields inputs w = (inr r, w).
Proof.
  intros Hname Hhp Ht. unfold template_ok in Ht.
  repeat (apply andb_true_iff in Ht as [Ht ?]).
  unfold set_job_fields, self_training_job_name, bind at 1. rewrite Hname.
  destruct (py_setitem_ok (_get_request_template "train") "TrainingJobName"
              "VpcConfig" name) as [r1 E1].
  { destruct (lookup1 "VpcConfig" _); [reflexivity|discriminate]. }
  unfold bind at 1, lift at 1. rewrite E1.
  destruct (py_setitem_ok r1 "RoleArn" "TrainingJobName" (get "role" inputs))
    as [r2 E2].
  { now rewrite (py_setitem_lookup1 _ _ _ _ E1). }
  unfold bind at 1, lift at 1. rewrite E2.
  unfold bind at 1, lift at 1. rewrite Hhp.
  destruct (py_setitem_ok r2 "HyperParameters" "RoleArn" hp) as [r3 E3].
  { now rewrite (py_setitem_lookup1 _ _ _ _ E2). }
  unfold bind at 1, lift at 1. rewrite E3.
  destruct (setitem2_ok r3 "AlgorithmSpecification" "TrainingInputMode"
              (get "training_input_mode" inputs)) as [r4 E4].
  { apply lookup2_is_dict with (k2 := "TrainingImage").
    facts. chase. assumption. }
  unfold lift. rewrite E4. eauto.
Qed.

(** The only way through lines 84-122 that reads no unbound name: an image
    and no algorithm name. *)
Lemma update_training_image_ok (inputs : dict) (r : value) (w : world) :
  is_some (lookup2 "AlgorithmSpecification" "TrainingImage" r) = true ->
  is_some (lookup2 "AlgorithmSpecification" "AlgorithmName" r) = true ->
  truthy (get "image" inputs) = true ->
  truthy (get "algorithm_name" inputs) = false ->
  exists r', update_training_image inputs r w = (inr r', w).
Proof.
  intros Hti Han Hi Ha. unfold update_training_image. rewrite Hi, Ha. simpl.
  destruct (setitem2_ok r "AlgorithmSpecification" "TrainingImage"
              (get "image" inputs)) as [r1 E1].
  { eapply lookup2_is_dict, Hti. }
  destruct (pop2_ok r1 "AlgorithmSpecification" "AlgorithmName") as [r2 E2].
  { pose proof E1 as E1'. facts. chase. assumption. }
  unfold bind, ret, lift. rewrite E1, E2. eauto.
Qed.

(** Lines 86 and 89: both messages go through [logging]. *)
Lemma update_training_image_no_logging (inputs : dict) (r : value) (w : world) :
  logging_bound = false ->
  truthy (get "image" inputs) = truthy (get "algorithm_name" inputs) ->
  update_training_image inputs r w = (inl (NameError "logging"), w).
Proof.
  intros Hlog Hsame. unfold update_training_image. rewrite Hsame.
  destruct (truthy (get "algorithm_name" inputs)); simpl;
    unfold bind, ret, module_logging; rewrite Hlog; reflexivity.
Qed.

(** Line 101: the catalog is read once the name is lower-cased and stripped. *)
Lemma update_training_image_no_catalog (inputs : dict) (r : value) (w : world)
  (s : string) :
  built_in_algos = None ->
  truthy (get "image" inputs) = false ->
  get "algorithm_name" inputs = VStr s ->
  truthy (VStr s) = true ->
  update_training_image inputs r w = (inl (NameError "built_in_algos"), w).
Proof.
  intros Hcat Hi Hs Ht. unfold update_training_image. rewrite Hi, Hs, Ht. simpl.
  unfold bind, ret, lift, py_lower, global_built_in_algos. rewrite Hcat.
  reflexivity.
Qed.

Lemma update_metric_definitions_ok (inputs : dict) (r : value) (w : world) :
  is_list (lookup2 "AlgorithmSpecification" "MetricDefinitions" r) = true ->
  none_or_dict (get "metric_definitions" inputs) = true ->
  exists r', update_metric_definitions inputs r w = (inr r', w).
Proof.
  intros Hl Hd. unfold update_metric_definitions.
  destruct (truthy (get "metric_definitions" inputs)) eqn:Hm.
  - destruct (get "metric_definitions" inputs) as [| | | | |items];
      try discriminate.
    unfold bind, lift. simpl.
    destruct (for_each_append2_ok "AlgorithmSpecification" "MetricDefinitions"
                (fun kv => VDict [("Name", VStr (fst kv)); ("Regex", snd kv)])
                items r Hl) as [r' E].
    rewrite E. eauto.
  - destruct (pop2_ok r "AlgorithmSpecification" "MetricDefinitions") as [r' E].
    { now apply is_list_is_some. }
    unfold lift. rewrite E. eauto.
Qed.

Lemma update_vpc_config_ok (inputs : dict) (r : value) (w : world) :
  is_dict (lookup1 "VpcConfig" r) = true ->
  none_or_str (get "vpc_security_group_ids" inputs) = true ->
  none_or_str (get "vpc_subnets" inputs) = true ->
  exists r', update_vpc_config inputs r w = (inr r', w).
Proof.
  intros Hd Hg Hs. unfold update_vpc_config.
  destruct (truthy (get "vpc_security_group_ids" inputs)
            && truthy (get "vpc_subnets" inputs)) eqn:Hv.
  - apply andb_true_iff in Hv as [Hv1 Hv2].
    destruct (get "vpc_security_group_ids" inputs) as [| | |g| |];
      try discriminate.
    destruct (get "vpc_subnets" inputs) as [| | |s| |]; try discriminate.
    simpl.
    destruct (setitem2_ok r "VpcConfig" "SecurityGroupIds"
                (VList (map VStr (split_on "," "" g))) Hd) as [r1 E1].
    destruct (setitem2_ok r1 "VpcConfig" "Subnets"
                (VList (map VStr (split_on "," "" s)))) as [r2 E2].
    { apply lookup2_is_dict with (k2 := "SecurityGroupIds").
      now rewrite (setitem2_lookup2 _ _ _ _ _ E1). }
    unfold bind, lift. rewrite E1, E2. eauto.
  - destruct (py_pop_ok r "VpcConfig") as [r' E].
    { destruct (lookup1 "VpcConfig" r); [reflexivity|discriminate]. }
    unfold lift. rewrite E. eauto.
Qed.

End Progress.

(* ================================================================== *)
(** ** The request builder: selection of the algorithm, channels *)
(* ================================================================== *)

Section Builder.

Context {env : Environment}.

Lemma builder_stops_at_selection (inputs : dict) (w : world) (name hp : value)
  (e : exn) :
  _training_job_name w = Some name ->
  _create_hyperparameters (get "hyperparameters" inputs) = inr hp ->
  template_ok (_get_request_template "train") = true ->
  (forall r, update_training_image inputs r w = (inl e, w)) ->
  _create_job_request inputs w = (inl e, w).
Proof.
  intros Hname Hhp Ht Hsel.
  destruct (set_job_fields_ok inputs w name hp Hname Hhp Ht) as [r1 E1].
  unfold _create_job_request. rewrite (bind_continues _ _ _ _ _ E1).
  apply bind_fails, Hsel.
Qed.

(** With an image and no algorithm name the first four blocks go through,
    log nothing and keep the rest of the template. *)
Lemma builder_reaches_channels (inputs : dict) (w : world) (name hp : value) :
  _training_job_name w = Some name ->
  _create_hyperparameters (get "hyperparameters" inputs) = inr hp ->
  template_ok (_get_request_template "train") = true ->
  inputs_typed inputs = true ->
  truthy (get "image" inputs) = true ->
  truthy (get "algorithm_name" inputs) = false ->
  exists r4,
    same_outside
      (job_fields_touched ++ training_image_touched
       ++ [("AlgorithmSpecification", Some "MetricDefinitions")]
       ++ vpc_touched)
      (_get_request_template "train") r4
    /\ _create_job_request inputs w
       = bind (update_input_channels inputs r4) (after_channels inputs) w.
Proof.
  intros Hname Hhp Ht Hty Hi Ha.
  destruct (set_job_fields_ok inputs w name hp Hname Hhp Ht) as [r1 E1].
  unfold template_ok in Ht. repeat (apply andb_true_iff in Ht as [Ht ?]).
  unfold inputs_typed in Hty. repeat (apply andb_true_iff in Hty as [Hty ?]).
  pose proof (set_job_fields_inv _ _ _ _ E1) as (_ & F1 & _).
  destruct (update_training_image_ok inputs r1 w) as (r2 & E2);
    try assumption; try (chase; assumption).
  pose proof (update_training_image_inv _ _ _ _ _ E2) as (F2 & _).
  destruct (update_metric_definitions_ok inputs r2 w) as (r3 & E3);
    try assumption; try (chase; assumption).
  pose proof (update_metric_definitions_inv _ _ _ _ _ E3) as (_ & F3 & _).
  destruct (update_vpc_config_ok inputs r3 w) as (r4 & E4);
    try assumption; try (chase; assumption).
  pose proof (update_vpc_config_inv _ _ _ _ _ E4) as (_ & F4 & _).
  exists r4. split.
  - eapply same_outside_trans; [exact F1|].
    eapply same_outside_trans; [exact F2|].
    eapply same_outside_trans; [exact F3|]. exact F4.
  - unfold _create_job_request.
    rewrite (bind_continues _ _ _ _ _ E1), (bind_continues _ _ _ _ _ E2),
      (bind_continues _ _ _ _ _ E3), (bind_continues _ _ _ _ _ E4).
    reflexivity.
Qed.

Lemma submit_not_reached (inputs : dict) (w w' : world) (e : exn) :
  _create_job_request inputs w = (inl e, w') ->
  create_and_submit inputs w = (inl e, w') /\ calls w' = calls w.
Proof.
  intros H. split.
  - unfold create_and_submit. now apply bind_fails.
  - eapply only_logs_calls, create_job_request_logs_only, H.
Qed.

(** What a returned request says of the image and algorithm name inputs. *)
Lemma selection_after_build (inputs : dict) (w w' : world) (request : value) :
  spot_frame ->
  _create_job_request inputs w = (inr request, w') ->
  (truthy (get "image" inputs) = true ->
   lookup2 "AlgorithmSpecification" "TrainingImage" request
     = Some (get "image" inputs)
   /\ lookup2 "AlgorithmSpecification" "AlgorithmName" request = None
   /\ (truthy (get "algorithm_name" inputs) = true -> logging_bound = true))
  /\ (truthy (get "image" inputs) = false ->
      exists s algos,
        get "algorithm_name" inputs = VStr s
        /\ truthy (VStr s) = true
        /\ built_in_algos = Some algos
        /\ ((exists image,
               lookup2 "AlgorithmSpecification" "TrainingImage" request
                 = Some image
               /\ lookup2 "AlgorithmSpecification" "AlgorithmName" request
                  = None
               /\ logging_bound = true)
            \/ (lookup2 "AlgorithmSpecification" "AlgorithmName" request
                  = Some (VStr s)
                /\ lookup2 "AlgorithmSpecification" "TrainingImage" request
                   = None))).
Proof.
  intros Hspot H. builder_inv Hspot.
  match goal with
  | Hi : truthy (get "image" inputs) = true -> _,
    Hn : truthy (get "image" inputs) = false -> _ |- _ =>
      rename Hi into Himage; rename Hn into Hname
  end.
  split; intros Hi.
  - destruct (Himage Hi) as (Hti & Han & Hlog). chase. auto.
  - destruct (Hname Hi) as (s & algos & Hs & Hts & Hcat & Hres).
    exists s, algos.
    split; [assumption|]. split; [assumption|]. split; [assumption|].
    chase. assumption.
Qed.

End Builder.

Lemma spot_support_frame (job : value) (global_name : option value) :
  @spot_frame (sample_env job global_name).
Proof.
  intros request inputs request' emitted. simpl. unfold spot_support.
  destruct (truthy (get "spot_instance" inputs)).
  - destruct (truthy (get "max_wait_time" inputs)); [|discriminate].
    destruct (py_setitem request "EnableManagedSpotTraining" _) as [|r1] eqn:E1;
      [discriminate|].
    destruct (setitem2 r1 "StoppingCondition" "MaxWaitTimeInSeconds" _)
      as [|r2] eqn:E2; [discriminate|].
    intros H. injection H as H _. facts. unfold spot_touched. frame.
  - intros H. injection H as <- _. apply same_outside_refl.
Qed.

Section SelectionClaims.

Context {env : Environment}.

Lemma update_input_channels_no_logging (inputs : dict) (r : value) (w : world) :
  logging_bound = false ->
  get "channels" inputs = VList [] ->
  update_input_channels inputs r w = (inl (NameError "logging"), w).
Proof.
  intros Hlog Hch. unfold update_input_channels. rewrite Hch.
  unfold bind, lift, module_logging. simpl. rewrite Hlog. reflexivity.
Qed.

Lemma stops_before_submit (inputs : dict) (w : world) (e : exn) :
  _create_job_request inputs w = (inl e, w) ->
  _create_job_request inputs w = (inl e, w)
  /\ create_and_submit inputs w = (inl e, w).
Proof.
  intros H. split; [assumption|]. now apply submit_not_reached.
Qed.

(** C1. The module binds no [logging].  With the name assigned, the
    hyperparameters accepted and a template of the expected shape: when the
    inputs give both an image and an algorithm name, the builder stops at
    line 89 with a NameError for [logging], where it was to go on with the
    image; when they give neither, it stops at line 86 with the same
    NameError, where it was to raise "Could not create job request".  Either
    way nothing is logged and the submit step is not reached.  A request the
    builder does return holds exactly one of TrainingImage and AlgorithmName,
    and comes from inputs that give exactly one of the two. *)
Theorem selection_messages_need_logging (inputs : dict) (w : world)
  (name hp : value) :
  logging_bound = false ->
  _training_job_name w = Some name ->
  _create_hyperparameters (get "hyperparameters" inputs) = inr hp ->
  template_ok (_get_request_template "train") = true ->
  (truthy (get "image" inputs) = true ->
   truthy (get "algorithm_name" inputs) = true ->
   _create_job_request inputs w = (inl (NameError "logging"), w)
   /\ create_and_submit inputs w = (inl (NameError "logging"), w))
  /\ (truthy (get "image" inputs) = false ->
      truthy (get "algorithm_name" inputs) = false ->
      _create_job_request inputs w = (inl (NameError "logging"), w)
      /\ create_and_submit inputs w = (inl (NameError "logging"), w))
  /\ (forall request w',
        spot_frame ->
        _create_job_request inputs w = (inr request, w') ->
        xorb (is_some (lookup2 "AlgorithmSpecification" "TrainingImage" request))
             (is_some (lookup2 "AlgorithmSpecification" "AlgorithmName" request))
        = true
        /\ xorb (truthy (get "image" inputs))
                (truthy (get "algorithm_name" inputs)) = true).
Proof.
  intros Hlog Hn Hhp Ht.
  assert (Hstop : truthy (get "image" inputs)
                  = truthy (get "algorithm_name" inputs) ->
                  _create_job_request inputs w = (inl (NameError "logging"), w)
                  /\ create_and_submit inputs w
                     = (inl (NameError "logging"), w)).
  { intros Hsame. apply stops_before_submit.
    apply (builder_stops_at_selection inputs w name hp); try assumption.
    intros r. now apply update_training_image_no_logging. }
  split; [|split].
  - intros Hi Ha. apply Hstop. congruence.
  - intros Hi Ha. apply Hstop. congruence.
  - intros request w' Hspot Hrun.
    destruct (selection_after_build _ _ _ _ Hspot Hrun) as [Himage Hname].
    destruct (truthy (get "image" inputs)) eqn:Hi.
    + destruct (Himage eq_refl) as (-> & -> & Hboth).
      split; [reflexivity|].
      destruct (truthy (get "algorithm_name" inputs)); [|reflexivity].
      specialize (Hboth eq_refl). congruence.
    + destruct (Hname eq_refl) as (s & algos & -> & -> & _ & Hres).
      split; [|reflexivity].
      destruct Hres as [(image & -> & -> & _) | [-> ->]]; reflexivity.
Qed.

(** C2. The module binds neither [logging] nor [built_in_algos].  With the
    name assigned, the hyperparameters accepted, a template of the expected
    shape and inputs of their declared types: when the channels input is the
    empty list the builder ends in a NameError, never in the exception "Could
    not create job request" - for inputs with an image and no algorithm name
    it is the NameError for [logging] at line 146; nothing is logged and the
    submit step is not reached.  Whenever the builder returns a request for a
    non-empty list of channels, InputDataConfig is that list. *)
Theorem empty_channels_need_logging (inputs : dict) (w : world)
  (name hp : value) :
  logging_bound = false ->
  built_in_algos = None ->
  _training_job_name w = Some name ->
  _create_hyperparameters (get "hyperparameters" inputs) = inr hp ->
  template_ok (_get_request_template "train") = true ->
  inputs_typed inputs = true ->
  (get "channels" inputs = VList [] ->
   exists unbound,
     _create_job_request inputs w = (inl (NameError unbound), w)
     /\ create_and_submit inputs w = (inl (NameError unbound), w)
     /\ (truthy (get "image" inputs) = true ->
         truthy (get "algorithm_name" inputs) = false ->
         unbound = "logging"))
  /\ (forall c cs request w',
        spot_frame ->
        get "channels" inputs = VList (c :: cs) ->
        _create_job_request inputs w = (inr request, w') ->
        lookup1 "InputDataConfig" request = Some (VList (c :: cs))).
Proof.
  intros Hlog Hcat Hn Hhp Ht Hty. split.
  - intros Hch.
    destruct (truthy (get "image" inputs)) eqn:Hi;
      destruct (truthy (get "algorithm_name" inputs)) eqn:Ha.
    + exists "logging".
      destruct (stops_before_submit inputs w (NameError "logging")) as [H1 H2].
      { apply (builder_stops_at_selection inputs w name hp); try assumption.
        intros r. apply update_training_image_no_logging; congruence. }
      split; [assumption|]. split; [assumption|]. discriminate.
    + exists "logging".
      destruct (builder_reaches_channels inputs w name hp Hn Hhp Ht Hty Hi Ha)
        as (r4 & _ & Hrun).
      destruct (stops_before_submit inputs w (NameError "logging")) as [H1 H2].
      { rewrite Hrun. apply bind_fails.
        now apply update_input_channels_no_logging. }
      split; [assumption|]. split; [assumption|]. reflexivity.
    + exists "built_in_algos".
      assert (Hs : exists s, get "algorithm_name" inputs = VStr s).
      { pose proof Hty as Hstr. unfold inputs_typed in Hstr.
        repeat (apply andb_true_iff in Hstr as [Hstr _]).
        destruct (get "algorithm_name" inputs);
          try discriminate Ha; try discriminate Hstr. eauto. }
      destruct Hs as [s Hs].
      destruct (stops_before_submit inputs w (NameError "built_in_algos"))
        as [H1 H2].
      { apply (builder_stops_at_selection inputs w name hp); try assumption.
        intros r. apply (update_training_image_no_catalog inputs r w s);
          try assumption. now rewrite <- Hs. }
      split; [assumption|]. split; [assumption|]. discriminate.
    + exists "logging".
      destruct (stops_before_submit inputs w (NameError "logging")) as [H1 H2].
      { apply (builder_stops_at_selection inputs w name hp); try assumption.
        intros r. apply update_training_image_no_logging; congruence. }
      split; [assumption|]. split; [assumption|]. discriminate.
  - intros c cs request w' Hspot Hch Hrun. builder_inv Hspot.
    chase. congruence.
Qed.

(** C3. The module binds no [built_in_algos].  No request the builder returns
    comes from inputs without an image; and with the name assigned, the
    hyperparameters accepted and a template of the expected shape, inputs
    that give no image and a non-empty algorithm name stop at line 101 with
    a NameError for [built_in_algos], once the name is lower-cased and
    stripped: the catalog is never searched, TrainingImage is not resolved
    and AlgorithmName is not kept.  Nothing is logged and the submit step is
    not reached. *)
Theorem algorithm_name_needs_catalog (inputs : dict) (w : world) :
  built_in_algos = None ->
  (forall request w',
     spot_frame ->
     _create_job_request inputs w = (inr request, w') ->
     truthy (get "image" inputs) = true)
  /\ (forall name hp s,
        _training_job_name w = Some name ->
        _create_hyperparameters (get "hyperparameters" inputs) = inr hp ->
        template_ok (_get_request_template "train") = true ->
        truthy (get "image" inputs) = false ->
        get "algorithm_name" inputs = VStr s ->
        s <> "" ->
        _create_job_request inputs w = (inl (NameError "built_in_algos"), w)
        /\ create_and_submit inputs w
           = (inl (NameError "built_in_algos"), w)).
Proof.
  intros Hcat. split.
  - intros request w' Hspot Hrun.
    destruct (selection_after_build _ _ _ _ Hspot Hrun) as [_ Hname].
    destruct (truthy (get "image" inputs)); [reflexivity|].
    destruct (Hname eq_refl) as (s & algos & _ & _ & Hsome & _). congruence.
  - intros name hp s Hn Hhp Ht Hi Hs Hne. apply stops_before_submit.
    apply (builder_stops_at_selection inputs w name hp); try assumption.
    intros r. apply (update_training_image_no_catalog inputs r w s);
      try assumption.
    simpl. apply negb_true_iff. now apply String.eqb_neq.
Qed.

(** C10 (as amended). With the name assigned, the hyperparameters accepted,
    a template of the expected shape and inputs of their declared types: the
    channel block leaves through its "must specify at least one input
    channel" branch - it fails with something other than a TypeError - only
    for a channels input that is present and is the empty list; when the
    channels key is absent the block raises a TypeError, from [len] on the
    missing value; and the builder fails with that TypeError, the submit step
    not reached, when the channels key is absent from inputs that give an
    image and no algorithm name. *)
Theorem absent_channels_type_error (inputs : dict) (w : world) (name hp : value) :
  _training_job_name w = Some name ->
  _create_hyperparameters (get "hyperparameters" inputs) = inr hp ->
  template_ok (_get_request_template "train") = true ->
  inputs_typed inputs = true ->
  (forall r w0 e w0',
     update_input_channels inputs r w0 = (inl e, w0') ->
     e <> TypeError ->
     dict_get "channels" inputs = Some (VList []))
  /\ (forall r w0,
        dict_get "channels" inputs = None ->
        update_input_channels inputs r w0 = (inl TypeError, w0))
  /\ (dict_get "channels" inputs = None ->
      truthy (get "image" inputs) = true ->
      truthy (get "algorithm_name" inputs) = false ->
      _create_job_request inputs w = (inl TypeError, w)
      /\ create_and_submit inputs w = (inl TypeError, w)).
Proof.
  intros Hn Hhp Ht Hty. split; [|split].
  - intros r w0 e w0'. unfold update_input_channels.
    pose proof Hty as Hty'.
    unfold inputs_typed in Hty'. apply andb_true_iff in Hty' as [_ Hch].
    unfold get, get_or in *.
    destruct (dict_get "channels" inputs) as [v|] eqn:Hv.
    + destruct v as [| | | |l|]; try discriminate Hch.
      * intros H He. injection H as H _. congruence.
      * destruct l as [|c l]; [reflexivity|].
        unfold bind, lift. simpl.
        destruct r; simpl; intros H He; injection H as H _; congruence.
    + intros H He. injection H as H _. congruence.
  - intros r w0 Hnone. unfold update_input_channels, get, get_or.
    rewrite Hnone. reflexivity.
  - intros Hnone Hi Ha.
    destruct (builder_reaches_channels inputs w name hp Hn Hhp Ht Hty Hi Ha)
      as (r4 & _ & Hrun).
    apply stops_before_submit. rewrite Hrun. apply bind_fails.
    unfold update_input_channels, get, get_or. rewrite Hnone. reflexivity.
Qed.

End SelectionClaims.

(** Following a read back, in a hypothesis. *)
Ltac chase_in H :=
  repeat match type of H with
  | context [lookup1 ?a ?r'] =>
      match goal with
      | F : same_outside _ ?r r' |- _ => rewrite (proj1 F a eq_refl) in H
      end
  | context [lookup2 ?a ?b ?r'] =>
      match goal with
      | F : same_outside _ ?r r' |- _ => rewrite (proj2 F a b eq_refl) in H
      end
  end.

(* ================================================================== *)
(** ** The request builder: optional blocks, overrides, job name *)
(* ================================================================== *)

Section BlockClaims.

Context {env : Environment}.

(** C6 (as amended). In a request the builder returns: VpcConfig is absent
    unless both VPC inputs are truthy, and then holds the two comma-split
    lists; MetricDefinitions is absent unless the metric definitions are
    truthy, and then holds the template's list followed by one Name/Regex
    entry per definition; the two encryption-key fields are always written
    with the input's value ([None] when the input is not supplied); and the
    Tags entry is the template's, followed by one Key/Value entry per tag. *)
Theorem optional_blocks (inputs : dict) (w w' : world) (request : value) :
  spot_frame ->
  _create_job_request inputs w = (inr request, w') ->
  (truthy (get "vpc_security_group_ids" inputs)
   && truthy (get "vpc_subnets" inputs) = false ->
   lookup1 "VpcConfig" request = None)
  /\ (truthy (get "vpc_security_group_ids" inputs)
      && truthy (get "vpc_subnets" inputs) = true ->
      exists groups subnets,
        py_split "," (get "vpc_security_group_ids" inputs) = inr groups
        /\ py_split "," (get "vpc_subnets" inputs) = inr subnets
        /\ lookup2 "VpcConfig" "SecurityGroupIds" request = Some groups
        /\ lookup2 "VpcConfig" "Subnets" request = Some subnets)
  /\ (truthy (get "metric_definitions" inputs) = false ->
      lookup2 "AlgorithmSpecification" "MetricDefinitions" request = None)
  /\ (truthy (get "metric_definitions" inputs) = true ->
      exists items l,
        get "metric_definitions" inputs = VDict items
        /\ lookup2 "AlgorithmSpecification" "MetricDefinitions"
             (_get_request_template "train") = Some (VList l)
        /\ lookup2 "AlgorithmSpecification" "MetricDefinitions" request
           = Some (VList (l ++ map metric_entry items)))
  /\ lookup2 "OutputDataConfig" "KmsKeyId" request
     = Some (get "output_encryption_key" inputs)
  /\ lookup2 "ResourceConfig" "VolumeKmsKeyId" request
     = Some (get "resource_encryption_key" inputs)
  /\ exists tags,
       get_or (VDict []) "tags" inputs = VDict tags
       /\ (tags = [] ->
           lookup1 "Tags" request = lookup1 "Tags" (_get_request_template "train"))
       /\ (tags <> [] ->
           exists l,
             lookup1 "Tags" (_get_request_template "train") = Some (VList l)
             /\ lookup1 "Tags" request = Some (VList (l ++ map tag_entry tags))).
Proof.
  intros Hspot Hrun. builder_inv Hspot.
  match goal with
  | Ht : exists items, get_or _ "tags" inputs = _ /\ _ |- _ =>
      destruct Ht as (tags & Htags & Hnil & Hcons)
  end.
  match goal with
  | Hm : truthy (get "metric_definitions" inputs) = true -> _ |- _ =>
      rename Hm into Hmetric
  end.
  match goal with
  | Hv : _ && _ = true -> exists groups subnets, _ |- _ => rename Hv into Hvpc
  end.
  split; [intros Hv; chase; auto|].
  split.
  { intros Hv. destruct (Hvpc Hv) as (g & s & Hg & Hs & Hlg & Hls).
    exists g, s. split; [assumption|]. split; [assumption|].
    chase. now split. }
  split; [intros Hm; chase; auto|].
  split.
  { intros Hm. destruct (Hmetric Hm) as (items & l & Hi & Hl & Hl').
    exists items, l. split; [assumption|]. chase_in Hl.
    split; [assumption|]. chase. assumption. }
  split; [chase; assumption|]. split; [chase; assumption|].
  exists tags. split; [assumption|]. split.
  - intros Hn. rewrite (Hnil Hn). chase. reflexivity.
  - intros Hn. destruct (Hcons Hn) as (l & Hl & Hl'). exists l.
    chase_in Hl. now split.
Qed.

(** C8. In a request the builder returns, each of InstanceCount,
    VolumeSizeInGB and MaxRuntimeInSeconds is the caller's input when that
    input is truthy (present and not zero), and is what the template has
    under that key when the input is absent, zero or otherwise falsy. *)
Theorem overrides_replace_defaults (inputs : dict) (w w' : world) (request : value) :
  spot_frame ->
  _create_job_request inputs w = (inr request, w') ->
  lookup2 "ResourceConfig" "InstanceCount" request
  = overridden (get "instance_count" inputs)
      (lookup2 "ResourceConfig" "InstanceCount" (_get_request_template "train"))
  /\ lookup2 "ResourceConfig" "VolumeSizeInGB" request
     = overridden (get "volume_size" inputs)
         (lookup2 "ResourceConfig" "VolumeSizeInGB"
            (_get_request_template "train"))
  /\ lookup2 "StoppingCondition" "MaxRuntimeInSeconds" request
     = overridden (get "max_run_time" inputs)
         (lookup2 "StoppingCondition" "MaxRuntimeInSeconds"
            (_get_request_template "train")).
Proof.
  intros Hspot Hrun. builder_inv Hspot.
  repeat match goal with
  | H : lookup2 _ _ _ = overridden _ _ |- _ => chase_in H; revert H
  end.
  intros H1 H2 H3. chase. now rewrite H1, H2, H3.
Qed.


End BlockClaims.

(* ================================================================== *)
(** ** The run: identity, status, outputs, termination *)
(* ================================================================== *)





Section Lifecycle.

Context {env : Environment}.









Lemma self_name_run (w : world) (name : value) :
  _training_job_name w = Some name ->
  self_training_job_name w = (inr name, w).
Proof. unfold self_training_job_name. now intros ->. Qed.

Lemma set_output_run (k : string) (v : value) (w : world) :
  set_output k v w = (inr tt, with_output k v w).
Proof. reflexivity. Qed.

Lemma get_model_artifacts_run (w : world) (name info url : value) :
  _training_job_name w = Some name ->
  sm_describe_training_job (calls w) name = inr info ->
  lookup2 "ModelArtifacts" "S3ModelArtifacts" info = Some url ->
  _get_model_artifacts_from_job w
  = (inr url, add_call (DescribeTrainingJob name) w).
Proof.
  intros Hn Hd Hurl. unfold _get_model_artifacts_from_job.
  rewrite (bind_continues _ _ _ _ _ (self_name_run w name Hn)).
  unfold bind, describe_training_job, lift. rewrite Hd.
  destruct info as [| | | | |d]; try discriminate Hurl.
  unfold lookup2 in Hurl. simpl in *.
  destruct (dict_get "ModelArtifacts" d) as [artifacts|]; [|discriminate].
  destruct artifacts; try discriminate Hurl. simpl in *. now rewrite Hurl.
Qed.

Lemma get_image_direct_run (w : world) (name info : value) (spec : dict)
  (image : value) :
  _training_job_name w = Some name ->
  sm_describe_training_job (calls w) name = inr info ->
  lookup1 "AlgorithmSpecification" info = Some (VDict spec) ->
  dict_get "TrainingImage" spec = Some image ->
  _get_image_from_job w = (inr image, add_call (DescribeTrainingJob name) w).
Proof.
  intros Hn Hd Hspec Himage. unfold _get_image_from_job.
  rewrite (bind_continues _ _ _ _ _ (self_name_run w name Hn)).
  unfold bind, describe_training_job, lift. rewrite Hd.
  destruct info as [| | | | |d]; try discriminate Hspec. simpl in *.
  rewrite Hspec. simpl. now rewrite Himage.
Qed.

Lemma get_image_by_algorithm_run (w : world) (name info : value) (spec : dict)
  (algorithm answer image : value) :
  _training_job_name w = Some name ->
  sm_describe_training_job (calls w) name = inr info ->
  lookup1 "AlgorithmSpecification" info = Some (VDict spec) ->
  dict_get "TrainingImage" spec = None ->
  dict_get "AlgorithmName" spec = Some algorithm ->
  sm_describe_algorithm (calls w ++ [DescribeTrainingJob name])%list algorithm
  = inr answer ->
  lookup2 "TrainingSpecification" "TrainingImage" answer = Some image ->
  _get_image_from_job w
  = (inr image,
     add_call (DescribeAlgorithm algorithm)
       (add_call (DescribeTrainingJob name) w)).
Proof.
  intros Hn Hd Hspec Hnone Halg Ha Himage. unfold _get_image_from_job.
  rewrite (bind_continues _ _ _ _ _ (self_name_run w name Hn)).
  unfold bind, describe_training_job, describe_algorithm, lift. rewrite Hd.
  destruct info as [| | | | |d]; try discriminate Hspec. simpl in *.
  rewrite Hspec. simpl. rewrite Hnone, Halg. simpl. rewrite Ha.
  destruct answer as [| | | | |d3]; try discriminate Himage.
  unfold lookup2 in Himage. simpl in *.
  destruct (dict_get "TrainingSpecification" d3) as [ts|]; [|discriminate].
  destruct ts; try discriminate Himage. simpl in *. now rewrite Himage.
Qed.


(** C4. For a description whose TrainingJobStatus is the string [s], fetched
    for the run's own job name: "Completed" gives a completed status without
    error; "Failed" gives a completed status with error whose message is the
    description's FailureReason, unchanged; every other string gives the
    status that is not completed. *)
Theorem status_classifier (w : world) (name response : value) (s : string) :
  _training_job_name w = Some name ->
  sm_describe_training_job (calls w) name = inr response ->
  lookup1 "TrainingJobStatus" response = Some (VStr s) ->
  (s = "Completed" ->
   _get_job_status w
   = (inr (mkStatus true (Some false) None),
      add_call (DescribeTrainingJob name) w))
  /\ (s = "Failed" ->
      forall reason,
        lookup1 "FailureReason" response = Some reason ->
        _get_job_status w
        = (inr (mkStatus true (Some true) (Some reason)),
           add_call (DescribeTrainingJob name) w))
  /\ (s <> "Completed" -> s <> "Failed" ->
      _get_job_status w
      = (inr (mkStatus false None None),
         add_call (DescribeTrainingJob name) w)).
Proof.
  intros Hn Hd Hs.
  assert (Hstart : forall k : value -> M SageMakerJobStatus,
             bind self_training_job_name
               (fun name => bind (describe_training_job name) k) w
             = k response (add_call (DescribeTrainingJob name) w)).
  { intros k. unfold bind, self_training_job_name, describe_training_job.
    rewrite Hn, Hd. reflexivity. }
  unfold _get_job_status. rewrite Hstart.
  destruct response as [| | | | |d]; try discriminate Hs. simpl in Hs.
  unfold bind at 1, lift at 1, py_getitem. rewrite Hs.
  split; [|split].
  - intros ->. reflexivity.
  - intros -> reason Hr. simpl in *. unfold bind, lift, ret. now rewrite Hr.
  - intros Hc Hf. unfold is_str.
    apply not_eq_sym, String.eqb_neq in Hc.
    apply not_eq_sym, String.eqb_neq in Hf.
    unfold bind, lift, ret. now rewrite Hc, Hf.
Qed.

(** C7. [_after_job_complete] describes the run's own job twice.  With the
    model artifact URL in the first description, the outputs get the job
    name, that URL, and the training image: the TrainingImage of the second
    description's AlgorithmSpecification when it has one, without further
    calls; otherwise the TrainingImage that one call to describe_algorithm,
    for the description's AlgorithmName, returns.  Outputs that were empty
    hold exactly these three entries. *)
Theorem outputs_after_job_complete (w : world) (name first second url : value)
  (spec : dict) :
  _training_job_name w = Some name ->
  sm_describe_training_job (calls w) name = inr first ->
  lookup2 "ModelArtifacts" "S3ModelArtifacts" first = Some url ->
  sm_describe_training_job (calls w ++ [DescribeTrainingJob name])%list name
  = inr second ->
  lookup1 "AlgorithmSpecification" second = Some (VDict spec) ->
  let populated image :=
    dict_set "training_image" image
      (dict_set "model_artifact_url" url
         (dict_set "job_name" name (outputs w))) in
  (forall image,
     dict_get "TrainingImage" spec = Some image ->
     exists w',
       _after_job_complete w = (inr tt, w')
       /\ outputs w' = populated image
       /\ (outputs w = [] ->
           outputs w'
           = [ ("job_name", name); ("model_artifact_url", url);
               ("training_image", image) ])
       /\ calls w'
          = (calls w ++ [DescribeTrainingJob name; DescribeTrainingJob name])%list)
  /\ (forall algorithm answer image,
        dict_get "TrainingImage" spec = None ->
        dict_get "AlgorithmName" spec = Some algorithm ->
        sm_describe_algorithm
          (calls w ++ [DescribeTrainingJob name; DescribeTrainingJob name])%list
          algorithm = inr answer ->
        lookup2 "TrainingSpecification" "TrainingImage" answer = Some image ->
        exists w',
          _after_job_complete w = (inr tt, w')
          /\ outputs w' = populated image
          /\ (outputs w = [] ->
              outputs w'
              = [ ("job_name", name); ("model_artifact_url", url);
                  ("training_image", image) ])
          /\ calls w'
             = (calls w ++ [DescribeTrainingJob name; DescribeTrainingJob name;
                            DescribeAlgorithm algorithm])%list).
Proof.
  intros Hn H1 Hurl H2 Hspec populated.
  pose (w1 := with_output "job_name" name w).
  pose (w2 := add_call (DescribeTrainingJob name) w1).
  pose (w3 := with_output "model_artifact_url" url w2).
  assert (Hstart : forall k : value -> M unit,
             bind self_training_job_name
               (fun name => bind (set_output "job_name" name)
                  (fun _ => bind _get_model_artifacts_from_job
                     (fun url => bind (set_output "model_artifact_url" url)
                        (fun _ => bind _get_image_from_job k)))) w
             = bind _get_image_from_job k w3).
  { intros k.
    rewrite (bind_continues _ _ _ _ _ (self_name_run w name Hn)).
    rewrite (bind_continues _ _ _ _ _ (set_output_run "job_name" name w)).
    rewrite (bind_continues _ _ _ _ _
               (get_model_artifacts_run w1 name first url Hn H1 Hurl)).
    rewrite (bind_continues _ _ _ _ _
               (set_output_run "model_artifact_url" url w2)).
    reflexivity. }
  assert (Hcalls : calls w3 = (calls w ++ [DescribeTrainingJob name])%list)
    by reflexivity.
  unfold _after_job_complete. split.
  - intros image Himage. eexists. rewrite Hstart.
    rewrite (bind_continues _ _ _ _ _
               (get_image_direct_run w3 name second spec image Hn H2 Hspec
                  Himage)).
    split; [reflexivity|]. split; [reflexivity|].
    split; [intros Ho; simpl; now rewrite Ho|]. simpl. now rewrite <- app_assoc.
  - intros algorithm answer image Hnone Halg H3 Himage. eexists.
    rewrite Hstart.
    assert (H3' : sm_describe_algorithm
                    (calls w3 ++ [DescribeTrainingJob name])%list algorithm
                  = inr answer).
    { rewrite Hcalls, <- app_assoc. exact H3. }
    rewrite (bind_continues _ _ _ _ _
               (get_image_by_algorithm_run w3 name second spec algorithm
                  answer image Hn H2 Hspec Hnone Halg H3' Himage)).
    split; [reflexivity|]. split; [reflexivity|].
    split; [intros Ho; simpl; now rewrite Ho|]. simpl. now rewrite <- !app_assoc.
Qed.

End Lifecycle.

(** C5. Evaluation of the termination and log hooks for the run named
    "job-1".  The module binds no [job_name]: both hooks raise NameError and
    issue no call.  With a module-level [job_name] bound to another job, the
    stop call and the log stream are addressed to that job, not to the
    run's. *)
Theorem termination_hooks_use_the_global_name :
  @_on_job_terminated (sample_env completed_job None) (named_world "job-1")
  = (inl (NameError "job_name"), named_world "job-1")
  /\ @_print_logs_for_job (sample_env completed_job None) (named_world "job-1")
     = (inl (NameError "job_name"), named_world "job-1")
  /\ calls (world_after
              (@_on_job_terminated
                 (sample_env completed_job (Some (VStr "stale-job"))))
              (named_world "job-1"))
     = [StopTrainingJob (VStr "stale-job")]
  /\ calls (world_after
              (@_print_logs_for_job
                 (sample_env completed_job (Some (VStr "stale-job"))))
              (named_world "job-1"))
     = [PrintCloudwatchLogs "/aws/sagemaker/TrainingJobs" (VStr "stale-job")].
Proof. repeat split. Qed.

(* ================================================================== *)
(** ** The statements at concrete inputs *)
(* ================================================================== *)

Lemma selection_messages_need_logging_witness :
  @_create_job_request default_env both_inputs (named_world "job-1")
  = (inl (NameError "logging"), named_world "job-1")
  /\ @_create_job_request default_env neither_inputs (named_world "job-1")
     = (inl (NameError "logging"), named_world "job-1")
  /\ @create_and_submit default_env neither_inputs (named_world "job-1")
     = (inl (NameError "logging"), named_world "job-1")
  /\ (exists request w',
        @_create_job_request default_env minimal_inputs (named_world "job-1")
        = (inr request, w')
        /\ xorb (is_some (lookup2 "AlgorithmSpecification" "TrainingImage"
                            request))
                (is_some (lookup2 "AlgorithmSpecification" "AlgorithmName"
                            request))
           = true).
Proof.
  split; [|split; [|split]].
  - destruct (@selection_messages_need_logging default_env both_inputs
                (named_world "job-1") (VStr "job-1") VNone
                eq_refl eq_refl eq_refl eq_refl) as (H & _).
    exact (proj1 (H eq_refl eq_refl)).
  - destruct (@selection_messages_need_logging default_env neither_inputs
                (named_world "job-1") (VStr "job-1") VNone
                eq_refl eq_refl eq_refl eq_refl) as (_ & H & _).
    exact (proj1 (H eq_refl eq_refl)).
  - destruct (@selection_messages_need_logging default_env neither_inputs
                (named_world "job-1") (VStr "job-1") VNone
                eq_refl eq_refl eq_refl eq_refl) as (_ & H & _).
    exact (proj2 (H eq_refl eq_refl)).
  - eexists. eexists. split; [vm_compute; reflexivity|].
    destruct (@selection_messages_need_logging default_env minimal_inputs
                (named_world "job-1") (VStr "job-1") VNone
                eq_refl eq_refl eq_refl eq_refl) as (_ & _ & H).
    exact (proj1 (H _ _ (spot_support_frame _ _) eq_refl)).
Defined.

Lemma empty_channels_need_logging_witness :
  @_create_job_request default_env empty_channels_inputs (named_world "job-1")
  = (inl (NameError "logging"), named_world "job-1")
  /\ @create_and_submit default_env empty_channels_inputs (named_world "job-1")
     = (inl (NameError "logging"), named_world "job-1")
  /\ (exists request w',
        @_create_job_request default_env minimal_inputs (named_world "job-1")
        = (inr request, w')
        /\ lookup1 "InputDataConfig" request = Some one_channel).
Proof.
  split; [|split].
  - destruct (@empty_channels_need_logging default_env empty_channels_inputs
                (named_world "job-1") (VStr "job-1") VNone
                eq_refl eq_refl eq_refl eq_refl eq_refl eq_refl) as [H _].
    destruct (H eq_refl) as (unbound & H1 & _ & H3).
    rewrite (H3 eq_refl eq_refl) in H1. exact H1.
  - destruct (@empty_channels_need_logging default_env empty_channels_inputs
                (named_world "job-1") (VStr "job-1") VNone
                eq_refl eq_refl eq_refl eq_refl eq_refl eq_refl) as [H _].
    destruct (H eq_refl) as (unbound & _ & H2 & H3).
    rewrite (H3 eq_refl eq_refl) in H2. exact H2.
  - eexists. eexists. split; [vm_compute; reflexivity|].
    destruct (@empty_channels_need_logging default_env minimal_inputs
                (named_world "job-1") (VStr "job-1") VNone
                eq_refl eq_refl eq_refl eq_refl eq_refl eq_refl) as [_ H].
    eapply H; [apply spot_support_frame|reflexivity|reflexivity].
Defined.

Lemma algorithm_name_needs_catalog_witness :
  @_create_job_request default_env builtin_by_name_inputs (named_world "job-1")
  = (inl (NameError "built_in_algos"), named_world "job-1")
  /\ @_create_job_request default_env custom_algorithm_inputs
       (named_world "job-1")
     = (inl (NameError "built_in_algos"), named_world "job-1")
  /\ @create_and_submit default_env custom_algorithm_inputs
       (named_world "job-1")
     = (inl (NameError "built_in_algos"), named_world "job-1").
Proof.
  assert (Hne : forall a s, String a s <> EmptyString) by discriminate.
  split; [|split].
  - destruct (@algorithm_name_needs_catalog default_env builtin_by_name_inputs
                (named_world "job-1") eq_refl) as [_ H].
    exact (proj1 (H (VStr "job-1") VNone " XGBoost "
                    eq_refl eq_refl eq_refl eq_refl eq_refl (Hne _ _))).
  - destruct (@algorithm_name_needs_catalog default_env custom_algorithm_inputs
                (named_world "job-1") eq_refl) as [_ H].
    exact (proj1 (H (VStr "job-1") VNone "My-Algo"
                    eq_refl eq_refl eq_refl eq_refl eq_refl (Hne _ _))).
  - destruct (@algorithm_name_needs_catalog default_env custom_algorithm_inputs
                (named_world "job-1") eq_refl) as [_ H].
    exact (proj2 (H (VStr "job-1") VNone "My-Algo"
                    eq_refl eq_refl eq_refl eq_refl eq_refl (Hne _ _))).
Defined.

Lemma absent_channels_type_error_witness :
  dict_get "channels" absent_channels_inputs = None
  /\ @_create_job_request default_env absent_channels_inputs
       (named_world "job-1") = (inl TypeError, named_world "job-1")
  /\ @create_and_submit default_env absent_channels_inputs
       (named_world "job-1") = (inl TypeError, named_world "job-1").
Proof.
  split; [reflexivity|].
  destruct (@absent_channels_type_error default_env absent_channels_inputs
              (named_world "job-1") (VStr "job-1") VNone
              eq_refl eq_refl eq_refl eq_refl) as (_ & _ & H).
  exact (H eq_refl eq_refl eq_refl).
Defined.

(** C10 as stated fails: with the channels key absent and neither image nor
    algorithm name given, the builder stops at line 86, before the channels
    are looked at, and the failure is not a TypeError. *)
Lemma absent_channels_selection_error :
  dict_get "channels" only_role_inputs = None
  /\ @_create_job_request default_env only_role_inputs (named_world "job-1")
     = (inl (NameError "logging"), named_world "job-1")
  /\ NameError "logging" <> TypeError.
Proof. repeat split. discriminate. Qed.

Lemma optional_blocks_witness :
  exists request w',
    @_create_job_request default_env full_inputs (named_world "job-1")
    = (inr request, w')
    /\ lookup2 "VpcConfig" "SecurityGroupIds" request
       = Some (VList [VStr "sg-1"; VStr "sg-2"])
    /\ lookup2 "VpcConfig" "Subnets" request = Some (VList [VStr "subnet-1"])
    /\ lookup2 "AlgorithmSpecification" "MetricDefinitions" request
       = Some (VList [ VDict [ ("Name", VStr "loss");
                               ("Regex", VStr "loss=(.*)") ] ])
    /\ lookup2 "OutputDataConfig" "KmsKeyId" request = Some (VStr "key-1")
    /\ lookup2 "ResourceConfig" "VolumeKmsKeyId" request = Some VNone
    /\ lookup1 "Tags" request
       = Some (VList [ VDict [ ("Key", VStr "team"); ("Value", VStr "ml") ] ]).
Proof.
  eexists. eexists. split; [vm_compute; reflexivity|].
  destruct (@optional_blocks default_env full_inputs (named_world "job-1") _ _
              (spot_support_frame _ _) eq_refl)
    as (_ & Hvpc & _ & Hmetric & Hkey & Hvol & tags & Htags & _ & Hcons).
  destruct (Hvpc eq_refl) as (g & s & Hg & Hs & Hlg & Hls).
  injection Hg as <-. injection Hs as <-.
  destruct (Hmetric eq_refl) as (items & l & Hi & Hl & Hl').
  injection Hi as <-. injection Hl as <-.
  injection Htags as <-.
  destruct Hcons as (l & Hl & Hl''); [discriminate|]. injection Hl as <-.
  repeat split; assumption.
Defined.

(** C6 as stated fails: for inputs with no encryption key and no tags, the
    request still has both key fields, set to [None], and a Tags entry, the
    empty list. *)
Lemma keys_and_tags_always_sent :
  dict_get "output_encryption_key" minimal_inputs = None
  /\ dict_get "resource_encryption_key" minimal_inputs = None
  /\ dict_get "tags" minimal_inputs = None
  /\ exists request w',
       @_create_job_request default_env minimal_inputs (named_world "job-1")
       = (inr request, w')
       /\ lookup2 "OutputDataConfig" "KmsKeyId" request = Some VNone
       /\ lookup2 "ResourceConfig" "VolumeKmsKeyId" request = Some VNone
       /\ lookup1 "Tags" request = Some (VList []).
Proof.
  repeat split. eexists. eexists. split; [vm_compute; reflexivity|].
  repeat split.
Qed.

Lemma overrides_replace_defaults_witness :
  exists request w',
    @_create_job_request default_env full_inputs (named_world "job-1")
    = (inr request, w')
    /\ lookup2 "ResourceConfig" "InstanceCount" request = Some (VInt 4)
    /\ lookup2 "ResourceConfig" "VolumeSizeInGB" request = Some (VInt 1)
    /\ lookup2 "StoppingCondition" "MaxRuntimeInSeconds" request
       = Some (VInt 86400).
Proof.
  eexists. eexists. split; [vm_compute; reflexivity|].
  exact (@overrides_replace_defaults default_env full_inputs (named_world "job-1") _ _
           (spot_support_frame _ _) eq_refl).
Defined.



Lemma status_classifier_witness :
  @_get_job_status (sample_env failed_job None) (named_world "job-1")
  = (inr (mkStatus true (Some true) (Some (VStr "OutOfMemory"))),
     add_call (DescribeTrainingJob (VStr "job-1")) (named_world "job-1"))
  /\ @_get_job_status default_env (named_world "job-1")
     = (inr (mkStatus true (Some false) None),
        add_call (DescribeTrainingJob (VStr "job-1")) (named_world "job-1")).
Proof.
  split.
  - destruct (@status_classifier (sample_env failed_job None)
                (named_world "job-1") (VStr "job-1") failed_job "Failed"
                eq_refl eq_refl eq_refl) as (_ & H & _).
    exact (H eq_refl (VStr "OutOfMemory") eq_refl).
  - destruct (@status_classifier default_env
                (named_world "job-1") (VStr "job-1") completed_job "Completed"
                eq_refl eq_refl eq_refl) as (H & _).
    exact (H eq_refl).
Defined.

Lemma outputs_after_job_complete_witness :
  (exists w',
     @_after_job_complete default_env (named_world "job-1") = (inr tt, w')
     /\ outputs w'
        = [ ("job_name", VStr "job-1");
            ("model_artifact_url", VStr "s3://bucket/model.tar.gz");
            ("training_image", VStr "registry/image:1") ]
     /\ calls w'
        = [ DescribeTrainingJob (VStr "job-1");
            DescribeTrainingJob (VStr "job-1") ])
  /\ (exists w',
        @_after_job_complete (sample_env completed_algorithm_job None)
          (named_world "job-1") = (inr tt, w')
        /\ outputs w'
           = [ ("job_name", VStr "job-1");
               ("model_artifact_url", VStr "s3://bucket/model.tar.gz");
               ("training_image", VStr "registry/algo:2") ]
        /\ calls w'
           = [ DescribeTrainingJob (VStr "job-1");
               DescribeTrainingJob (VStr "job-1");
               DescribeAlgorithm (VStr "my-algorithm") ]).
Proof.
  split.
  - destruct (@outputs_after_job_complete default_env (named_world "job-1")
                (VStr "job-1") completed_job completed_job
                (VStr "s3://bucket/model.tar.gz")
                [ ("TrainingImage", VStr "registry/image:1") ]
                eq_refl eq_refl eq_refl eq_refl eq_refl) as [H _].
    destruct (H (VStr "registry/image:1") eq_refl) as (w' & H1 & _ & H3 & H4).
    exists w'. split; [exact H1|]. split; [exact (H3 eq_refl)|exact H4].
  - destruct (@outputs_after_job_complete
                (sample_env completed_algorithm_job None) (named_world "job-1")
                (VStr "job-1") completed_algorithm_job completed_algorithm_job
                (VStr "s3://bucket/model.tar.gz")
                [ ("AlgorithmName", VStr "my-algorithm") ]
                eq_refl eq_refl eq_refl eq_refl eq_refl) as [_ H].
    destruct (H (VStr "my-algorithm") _ (VStr "registry/algo:2")
                eq_refl eq_refl eq_refl eq_refl) as (w' & H1 & _ & H3 & H4).
    exists w'. split; [exact H1|]. split; [exact (H3 eq_refl)|exact H4].
Defined.

(* ================================================================== *)
(** ** The request builder as a whole *)
(* ================================================================== *)

(** The binds of a successful [_create_job_request], one hypothesis per
    block. *)
Ltac builder_split :=
  repeat match goal with
  | H : _create_job_request _ _ = (inr _, _) |- _ =>
      unfold _create_job_request in H
  | H : bind _ _ _ = (inr _, _) |- _ =>
      apply bind_inr in H; destruct H as (? & ? & ? & H)
  end.

Section BuilderExtras.

Context {env : Environment}.

Lemma set_job_fields_effects (inputs : dict) (w w' : world) (r : value) :
  set_job_fields inputs w = (inr r, w') ->
  lookup1 "RoleArn" r = Some (get "role" inputs)
  /\ lookup2 "AlgorithmSpecification" "TrainingInputMode" r
     = Some (get "training_input_mode" inputs)
  /\ exists hp,
       _create_hyperparameters (get "hyperparameters" inputs) = inr hp
       /\ lookup1 "HyperParameters" r = Some hp.
Proof.
  unfold set_job_fields. intros H. repeat run_inv.
  match goal with
  | Hh : _create_hyperparameters _ = inr ?hp |- _ => rename Hh into Hhp
  end.
  facts. split; [chase; assumption|]. split; [assumption|].
  eexists. split; [exact Hhp|]. chase. assumption.
Qed.

Lemma update_output_and_resources_effects (inputs : dict) (r r' : value)
  (w w' : world) :
  update_output_and_resources inputs r w = (inr r', w') ->
  lookup2 "OutputDataConfig" "S3OutputPath" r'
  = Some (get "model_artifact_path" inputs)
  /\ lookup2 "ResourceConfig" "InstanceType" r'
     = Some (get "instance_type" inputs)
  /\ lookup1 "EnableNetworkIsolation" r'
     = Some (get "network_isolation" inputs)
  /\ lookup1 "EnableInterContainerTrafficEncryption" r'
     = Some (get "traffic_encryption" inputs).
Proof.
  unfold update_output_and_resources. intros H. repeat run_inv. facts.
  repeat split; chase; assumption.
Qed.

Lemma quiet_ret {A : Type} (a : A) : quiet (ret a).
Proof. intros w res w' H. now injection H as _ <-. Qed.

Lemma quiet_raise {A : Type} (e : exn) : quiet (@raise A e).
Proof. intros w res w' H. now injection H as _ <-. Qed.

Lemma quiet_lift {A : Type} (r : exn + A) : quiet (lift r).
Proof. intros w res w' H. now injection H as _ <-. Qed.

Lemma quiet_self_name : quiet self_training_job_name.
Proof.
  intros w res w'. unfold self_training_job_name.
  destruct (_training_job_name w); intros H; now injection H as _ <-.
Qed.

Lemma quiet_built_in_algos : quiet global_built_in_algos.
Proof.
  unfold global_built_in_algos. destruct built_in_algos.
  - apply quiet_ret.
  - apply quiet_raise.
Qed.

Lemma quiet_get_image_uri : quiet global_get_image_uri.
Proof.
  unfold global_get_image_uri. destruct get_image_uri.
  - apply quiet_ret.
  - apply quiet_raise.
Qed.

Lemma quiet_module_logging (lvl : level) (msg : string) :
  logging_bound = false -> quiet (module_logging lvl msg).
Proof. unfold module_logging. intros ->. apply quiet_raise. Qed.

Lemma quiet_bind {A B : Type} (m : M A) (f : A -> M B) :
  quiet m -> (forall a, quiet (f a)) -> quiet (bind m f).
Proof.
  intros Hm Hf w res w'. unfold bind.
  destruct (m w) as [[e|a] w1] eqn:E; pose proof (Hm _ _ _ E); subst w1.
  - intros H. now injection H as _ <-.
  - apply Hf.
Qed.

Lemma quiet_if {A : Type} (b : bool) (m1 m2 : M A) :
  quiet m1 -> quiet m2 -> quiet (if b then m1 else m2).
Proof. now destruct b. Qed.

(** A quiet step either stops the run where it started or hands over. *)
Lemma quiet_step {A B : Type} (m : M A) (f : A -> M B) (w w' : world)
  (res : exn + B) :
  quiet m ->
  bind m f w = (res, w') ->
  (w' = w /\ exists e, res = inl e) \/ exists a, f a w = (res, w').
Proof.
  intros Hm. unfold bind.
  destruct (m w) as [[e|a] w1] eqn:E; pose proof (Hm _ _ _ E); subst w1.
  - intros H. injection H as <- <-. left. eauto.
  - intros H. right. eauto.
Qed.

Ltac quiet_tac Hlog :=
  repeat first
    [ progress cbv zeta
    | apply (quiet_module_logging _ _ Hlog)
    | apply quiet_built_in_algos
    | apply quiet_get_image_uri
    | apply quiet_self_name
    | apply quiet_bind; [|intros ?]
    | apply quiet_if
    | apply quiet_ret
    | apply quiet_raise
    | apply quiet_lift
    | match goal with
      | |- quiet (match ?x with _ => _ end) => destruct x
      end ].

(** X1. Building a request has no effect but logging: whatever it returns,
    no remote call is recorded, the outputs, the job name and the clock are
    as before, and the log only grows. *)
Theorem builder_only_logs (inputs : dict) (w w' : world) (res : exn + value) :
  _create_job_request inputs w = (res, w') ->
  calls w' = calls w
  /\ outputs w' = outputs w
  /\ _training_job_name w' = _training_job_name w
  /\ now w' = now w
  /\ exists l, records w' = (records w ++ l)%list.
Proof.
  intros H. apply create_job_request_logs_only in H. destruct H as [l ->].
  repeat split. now exists l.
Qed.

(** X2. A request the builder returns carries the plain inputs under their
    request keys, [None] for an input that was not given: role, input mode,
    output path, instance type and the two network flags; HyperParameters is
    what [_create_hyperparameters] made of the hyperparameters input. *)
Theorem builder_copies_plain_inputs (inputs : dict) (w w' : world)
  (request : value) :
  spot_frame ->
  _create_job_request inputs w = (inr request, w') ->
  lookup1 "RoleArn" request = Some (get "role" inputs)
  /\ lookup2 "AlgorithmSpecification" "TrainingInputMode" request
     = Some (get "training_input_mode" inputs)
  /\ lookup2 "OutputDataConfig" "S3OutputPath" request
     = Some (get "model_artifact_path" inputs)
  /\ lookup2 "ResourceConfig" "InstanceType" request
     = Some (get "instance_type" inputs)
  /\ lookup1 "EnableNetworkIsolation" request
     = Some (get "network_isolation" inputs)
  /\ lookup1 "EnableInterContainerTrafficEncryption" request
     = Some (get "traffic_encryption" inputs)
  /\ exists hp,
       _create_hyperparameters (get "hyperparameters" inputs) = inr hp
       /\ lookup1 "HyperParameters" request = Some hp.
Proof.
  intros Hspot H. builder_split.
  match goal with
  | H1 : set_job_fields _ _ = _, H6 : update_output_and_resources _ _ _ = _ |- _ =>
      pose proof (set_job_fields_effects _ _ _ _ H1) as (Hrole & Hmode & hp & Hhp & Hhyper);
      pose proof (update_output_and_resources_effects _ _ _ _ _ H6)
        as (Hpath & Htype & Hiso & Henc)
  end.
  builder_inv Hspot.
  split; [chase; assumption|]. split; [chase; assumption|].
  split; [chase; assumption|]. split; [chase; assumption|].
  split; [chase; assumption|]. split; [chase; assumption|].
  exists hp. split; [assumption|]. chase. assumption.
Qed.

(** X3. Outside the entries it writes, a request the builder returns reads
    like the template: no other entry is added, removed or changed, at the
    top level or inside the nested blocks. *)
Theorem builder_keeps_rest_of_template (inputs : dict) (w w' : world)
  (request : value) :
  spot_frame ->
  _create_job_request inputs w = (inr request, w') ->
  same_outside builder_touched (_get_request_template "train") request.
Proof.
  intros Hspot H. builder_inv Hspot. unfold builder_touched.
  repeat (eapply same_outside_trans; [eassumption|]).
  assumption.
Qed.

(** X4. The module binds no [logging], so the builder logs nothing of its
    own.  Whatever a build returns, it either failed and left the world as it
    was, or it reached the spot-instance helper and the world after is the
    world before with the records that helper emitted - which is the case for
    every returned request. *)
Theorem builder_log (inputs : dict) (w w' : world) (res : exn + value) :
  logging_bound = false ->
  _create_job_request inputs w = (res, w') ->
  (w' = w /\ exists e, res = inl e)
  \/ exists before outcome emitted,
       _enable_spot_instance_support before inputs = (outcome, emitted)
       /\ w' = add_records emitted w
       /\ (forall e, outcome = inl e -> res = inl e).
Proof.
  intros Hlog H. unfold _create_job_request in H.
  apply quiet_step in H; [|unfold set_job_fields; quiet_tac Hlog].
  destruct H as [H|[r1 H]]; [now left|].
  apply quiet_step in H; [|unfold update_training_image; quiet_tac Hlog].
  destruct H as [H|[r2 H]]; [now left|].
  apply quiet_step in H; [|unfold update_metric_definitions; quiet_tac Hlog].
  destruct H as [H|[r3 H]]; [now left|].
  apply quiet_step in H; [|unfold update_vpc_config; quiet_tac Hlog].
  destruct H as [H|[r4 H]]; [now left|].
  apply quiet_step in H; [|unfold update_input_channels; quiet_tac Hlog].
  destruct H as [H|[r5 H]]; [now left|].
  apply quiet_step in H; [|unfold update_output_and_resources; quiet_tac Hlog].
  destruct H as [H|[r6 H]]; [now left|].
  apply quiet_step in H; [|unfold update_numeric_overrides; quiet_tac Hlog].
  destruct H as [H|[r7 H]]; [now left|].
  right. unfold bind, enable_spot_instance_support in H.
  destruct (_enable_spot_instance_support r7 inputs) as [outcome emitted] eqn:E.
  exists r7, outcome, emitted. split; [exact E|].
  destruct outcome as [e|r8].
  - injection H as <- <-. split; [reflexivity|]. intros e0 He. exact He.
  - assert (Hq : quiet (append_tags inputs r8))
      by (unfold append_tags; quiet_tac Hlog).
    split; [exact (Hq _ _ _ H)|]. discriminate.
Qed.

End BuilderExtras.

(* ================================================================== *)
(** ** When the builder returns a request *)
(* ================================================================== *)

Lemma append1_ok (r : value) (k : string) (x : value) :
  is_list (lookup1 k r) = true -> exists r', append1 r k x = inr r'.
Proof.
  unfold append1. destruct r; simpl; try discriminate.
  destruct (dict_get k d) as [l|]; [|discriminate].
  destruct l; simpl; try discriminate. intros _. eauto.
Qed.

Lemma for_each_append1_ok (k : string) (f : string * value -> value)
  (items : dict) (r : value) :
  is_list (lookup1 k r) = true ->
  exists r', for_each items (fun kv request => append1 request k (f kv)) r = inr r'.
Proof.
  revert r. induction items as [|kv items IH]; intros r Hl; simpl.
  - eauto.
  - destruct (append1_ok r k (f kv) Hl) as [r1 E]. rewrite E.
    apply IH. apply append1_lookup1 in E as (l & _ & ->). reflexivity.
Qed.

Lemma is_dict_is_some (o : option value) : is_dict o = true -> is_some o = true.
Proof. destruct o as [v|]; [|discriminate]. reflexivity. Qed.

Section FullProgress.

Context {env : Environment}.

Lemma update_input_channels_ok (inputs : dict) (r : value) (w : world)
  (a : string) (c : value) (cs : list value) :
  is_some (lookup1 a r) = true ->
  get "channels" inputs = VList (c :: cs) ->
  exists r', update_input_channels inputs r w = (inr r', w).
Proof.
  intros Hr Hc. unfold update_input_channels. rewrite Hc.
  destruct (py_setitem_ok r "InputDataConfig" a (VList (c :: cs)) Hr) as [r' E].
  unfold bind, lift. simpl. rewrite E. eauto.
Qed.

Lemma update_output_and_resources_ok (inputs : dict) (r : value) (w : world) :
  is_dict (lookup1 "OutputDataConfig" r) = true ->
  is_dict (lookup1 "ResourceConfig" r) = true ->
  exists r', update_output_and_resources inputs r w = (inr r', w).
Proof.
  intros Ho Hr. unfold update_output_and_resources.
  destruct (setitem2_ok r "OutputDataConfig" "S3OutputPath"
              (get "model_artifact_path" inputs) Ho) as [r1 E1].
  destruct (setitem2_ok r1 "OutputDataConfig" "KmsKeyId"
              (get "output_encryption_key" inputs)) as [r2 E2].
  { apply lookup2_is_dict with (k2 := "S3OutputPath").
    now rewrite (setitem2_lookup2 _ _ _ _ _ E1). }
  destruct (setitem2_ok r2 "ResourceConfig" "InstanceType"
              (get "instance_type" inputs)) as [r3 E3].
  { pose proof E1 as E1'. pose proof E2 as E2'. facts. chase. assumption. }
  destruct (setitem2_ok r3 "ResourceConfig" "VolumeKmsKeyId"
              (get "resource_encryption_key" inputs)) as [r4 E4].
  { apply lookup2_is_dict with (k2 := "InstanceType").
    now rewrite (setitem2_lookup2 _ _ _ _ _ E3). }
  destruct (py_setitem_ok r4 "EnableNetworkIsolation" "ResourceConfig"
              (get "network_isolation" inputs)) as [r5 E5].
  { apply is_dict_is_some. apply lookup2_is_dict with (k2 := "VolumeKmsKeyId").
    now rewrite (setitem2_lookup2 _ _ _ _ _ E4). }
  destruct (py_setitem_ok r5 "EnableInterContainerTrafficEncryption"
              "EnableNetworkIsolation" (get "traffic_encryption" inputs))
    as [r6 E6].
  { now rewrite (py_setitem_lookup1 _ _ _ _ E5). }
  unfold bind, lift. rewrite E1, E2, E3, E4, E5, E6. eauto.
Qed.

Lemma update_numeric_overrides_ok (inputs : dict) (r : value) (w : world) :
  is_dict (lookup1 "ResourceConfig" r) = true ->
  is_dict (lookup1 "StoppingCondition" r) = true ->
  exists r',
    update_numeric_overrides inputs r w = (inr r', w)
    /\ is_dict (lookup1 "StoppingCondition" r') = true.
Proof.
  intros Hr Hs. unfold update_numeric_overrides.
  assert (S1 : exists r1,
             (if truthy (get "instance_count" inputs)
              then lift (setitem2 r "ResourceConfig" "InstanceCount"
                           (get "instance_count" inputs))
              else ret r) w = (inr r1, w)
             /\ is_dict (lookup1 "ResourceConfig" r1) = true
             /\ is_dict (lookup1 "StoppingCondition" r1) = true).
  { destruct (truthy (get "instance_count" inputs)).
    - destruct (setitem2_ok r "ResourceConfig" "InstanceCount"
                  (get "instance_count" inputs) Hr) as [r1 E1].
      exists r1. unfold lift. rewrite E1. split; [reflexivity|].
      pose proof E1 as E1'. facts. split.
      + apply lookup2_is_dict with (k2 := "InstanceCount"). now rewrite E1.
      + chase. assumption.
    - exists r. now split. }
  destruct S1 as (r1 & E1 & Hr1 & Hs1).
  assert (S2 : exists r2,
             (if truthy (get "volume_size" inputs)
              then lift (setitem2 r1 "ResourceConfig" "VolumeSizeInGB"
                           (get "volume_size" inputs))
              else ret r1) w = (inr r2, w)
             /\ is_dict (lookup1 "StoppingCondition" r2) = true).
  { destruct (truthy (get "volume_size" inputs)).
    - destruct (setitem2_ok r1 "ResourceConfig" "VolumeSizeInGB"
                  (get "volume_size" inputs) Hr1) as [r2 E2].
      exists r2. unfold lift. rewrite E2. split; [reflexivity|].
      facts. chase. assumption.
    - exists r1. now split. }
  destruct S2 as (r2 & E2 & Hs2).
  rewrite (bind_continues _ _ _ _ _ E1), (bind_continues _ _ _ _ _ E2).
  destruct (truthy (get "max_run_time" inputs)).
  - destruct (setitem2_ok r2 "StoppingCondition" "MaxRuntimeInSeconds"
                (get "max_run_time" inputs) Hs2) as [r3 E3].
    exists r3. unfold lift. rewrite E3. split; [reflexivity|].
    apply lookup2_is_dict with (k2 := "MaxRuntimeInSeconds").
    now rewrite (setitem2_lookup2 _ _ _ _ _ E3).
  - now exists r2.
Qed.

Lemma append_tags_ok (inputs : dict) (r : value) (w : world) :
  tags_typed inputs = true ->
  is_list (lookup1 "Tags" r) = true ->
  exists r', append_tags inputs r w = (inr r', w).
Proof.
  intros Ht Hl. unfold append_tags, tags_typed in *.
  destruct (get_or (VDict []) "tags" inputs) as [| | | | |items];
    try discriminate.
  destruct (for_each_append1_ok "Tags"
              (fun kv => VDict [("Key", VStr (fst kv)); ("Value", snd kv)])
              items r Hl) as [r' E].
  unfold bind, lift. simpl. rewrite E. eauto.
Qed.

(** X5. The module binds neither [logging] nor [built_in_algos].  With the
    name assigned, the hyperparameters accepted, a template holding every
    block the builder writes into, inputs of their declared types and a
    spot-instance helper that accepts the inputs, the builder returns a
    request exactly when the inputs give an image, no algorithm name and a
    non-empty list of channels. *)
Theorem builder_succeeds_iff (inputs : dict) (w : world) (name hp : value) :
  logging_bound = false ->
  built_in_algos = None ->
  _training_job_name w = Some name ->
  _create_hyperparameters (get "hyperparameters" inputs) = inr hp ->
  template_complete (_get_request_template "train") = true ->
  inputs_typed inputs = true ->
  tags_typed inputs = true ->
  spot_frame ->
  spot_accepts inputs ->
  (exists request w', _create_job_request inputs w = (inr request, w'))
  <-> (truthy (get "image" inputs) = true
       /\ truthy (get "algorithm_name" inputs) = false
       /\ exists c cs, get "channels" inputs = VList (c :: cs)).
Proof.
  intros Hlog Hcat Hname Hhp Ht Hty Htags Hframe Hspot.
  unfold template_complete in Ht.
  apply andb_true_iff in Ht as [Ht Htag].
  apply andb_true_iff in Ht as [Ht Hstop].
  apply andb_true_iff in Ht as [Ht Hres].
  apply andb_true_iff in Ht as [Ht Hout].
  split.
  - intros (request & w' & Hrun).
    destruct (selection_after_build _ _ _ _ Hframe Hrun) as [Hi Hn].
    destruct (truthy (get "image" inputs)) eqn:Eimage.
    + split; [reflexivity|]. split.
      * destruct (Hi eq_refl) as (_ & _ & Hboth).
        destruct (truthy (get "algorithm_name" inputs)); [|reflexivity].
        specialize (Hboth eq_refl). congruence.
      * builder_inv Hframe.
        match goal with
        | Hl : exists n, py_len _ = inr n /\ _ |- _ =>
            destruct Hl as (n & Hlen & Hpos)
        end.
        unfold inputs_typed in Hty. apply andb_true_iff in Hty as [_ Hch].
        destruct (get "channels" inputs) as [| | | |l|]; try discriminate.
        destruct l as [|c cs]; [|eauto].
        simpl in Hlen. injection Hlen as <-. lia.
    + destruct (Hn eq_refl) as (s & algos & _ & _ & Hsome & _). congruence.
  - intros (Hi & Ha & c & cs & Hch).
    destruct (builder_reaches_channels inputs w name hp Hname Hhp Ht
                Hty Hi Ha) as (r4 & F4 & Hrun).
    destruct (update_input_channels_ok inputs r4 w "OutputDataConfig" c cs)
      as [r5 E5]; [apply is_dict_is_some; chase; assumption|assumption|].
    pose proof (update_input_channels_inv _ _ _ _ _ E5) as (_ & F5 & _).
    destruct (update_output_and_resources_ok inputs r5 w) as [r6 E6];
      try (chase; assumption).
    pose proof (update_output_and_resources_inv _ _ _ _ _ E6)
      as (_ & F6 & Hk & Hv).
    destruct (update_numeric_overrides_ok inputs r6 w) as (r7 & E7 & Hs7).
    { apply lookup2_is_dict with (k2 := "VolumeKmsKeyId"). now rewrite Hv. }
    { chase. assumption. }
    pose proof (update_numeric_overrides_inv _ _ _ _ _ E7) as (_ & F7 & _).
    destruct (Hspot r7 Hs7) as (r8 & emitted & E8).
    pose proof (Hframe _ _ _ _ E8) as F8.
    destruct (append_tags_ok inputs r8 (add_records emitted w) Htags)
      as [r9 E9]; [chase; assumption|].
    exists r9, (add_records emitted w). rewrite Hrun.
    rewrite (bind_continues _ _ _ _ _ E5). unfold after_channels.
    rewrite (bind_continues _ _ _ _ _ E6), (bind_continues _ _ _ _ _ E7).
    assert (E8' : enable_spot_instance_support inputs r7 w
                  = (inr r8, add_records emitted w)).
    { unfold enable_spot_instance_support. now rewrite E8. }
    rewrite (bind_continues _ _ _ _ _ E8'). exact E9.
Qed.

End FullProgress.

(* ================================================================== *)
(** ** Strings: splitting a list *)
(* ================================================================== *)

Lemma str_app_nil_r (s : string) : s ++ "" = s.
Proof. induction s as [|c s IH]; simpl; [reflexivity|now rewrite IH]. Qed.

Lemma str_app_assoc (a b c : string) : (a ++ b) ++ c = a ++ b ++ c.
Proof. induction a as [|x a IH]; simpl; [reflexivity|now rewrite IH]. Qed.

Lemma rev_string_acc (acc s : string) : rev_string acc s = rev_string "" s ++ acc.
Proof.
  revert acc. induction s as [|c s IH]; intros acc; simpl; [reflexivity|].
  rewrite (IH (String c acc)), (IH (String c "")).
  now rewrite str_app_assoc.
Qed.

Lemma split_on_nonempty (sep : ascii) (cur s : string) : split_on sep cur s <> [].
Proof.
  revert cur. induction s as [|c s IH]; intros cur; simpl; [discriminate|].
  destruct (Ascii.eqb c sep); [discriminate|apply IH].
Qed.

Lemma concat_cons (sep x : string) (xs : list string) :
  xs <> [] -> String.concat sep (x :: xs) = x ++ sep ++ String.concat sep xs.
Proof. destruct xs; [congruence|reflexivity]. Qed.

(** Joining the pieces of a split with the separator gives the string back. *)
Lemma split_on_join (sep : ascii) (cur s : string) :
  String.concat (String sep "") (split_on sep cur s) = rev_string "" cur ++ s.
Proof.
  revert cur. induction s as [|c s IH]; intros cur; simpl.
  - now rewrite str_app_nil_r.
  - destruct (Ascii.eqb c sep) eqn:E.
    + apply Ascii.eqb_eq in E. subst c.
      rewrite concat_cons by apply split_on_nonempty.
      rewrite IH. reflexivity.
    + rewrite IH. simpl. rewrite (rev_string_acc (String c "") cur).
      now rewrite str_app_assoc.
Qed.

Lemma has_char_rev (sep : ascii) (acc s : string) :
  has_char sep (rev_string acc s) = has_char sep s || has_char sep acc.
Proof.
  revert acc. induction s as [|c s IH]; intros acc; simpl; [reflexivity|].
  rewrite IH. simpl.
  destruct (Ascii.eqb c sep), (has_char sep s), (has_char sep acc); reflexivity.
Qed.

Lemma split_on_pieces (sep : ascii) (cur s : string) :
  has_char sep cur = false ->
  Forall (fun piece => has_char sep piece = false) (split_on sep cur s).
Proof.
  revert cur. induction s as [|c s IH]; intros cur Hcur; simpl.
  - constructor; [|constructor]. rewrite has_char_rev, Hcur. reflexivity.
  - destruct (Ascii.eqb c sep) eqn:E.
    + constructor; [|now apply IH].
      rewrite has_char_rev, Hcur. reflexivity.
    + apply IH. simpl. now rewrite E, Hcur.
Qed.

Section StringExtras.

Context {env : Environment}.

(** X7. When both VPC inputs are non-empty strings, the two lists in the
    VpcConfig of a request the builder returns are lists of strings that
    hold no comma and that, joined with commas, give the inputs back. *)
Theorem vpc_lists_join_back (inputs : dict) (w w' : world) (request : value)
  (groups subnets : string) :
  spot_frame ->
  get "vpc_security_group_ids" inputs = VStr groups ->
  get "vpc_subnets" inputs = VStr subnets ->
  groups <> "" -> subnets <> "" ->
  _create_job_request inputs w = (inr request, w') ->
  exists gs ss,
    lookup2 "VpcConfig" "SecurityGroupIds" request = Some (str_values gs)
    /\ lookup2 "VpcConfig" "Subnets" request = Some (str_values ss)
    /\ String.concat "," gs = groups
    /\ String.concat "," ss = subnets
    /\ Forall (fun piece => has_char "," piece = false) gs
    /\ Forall (fun piece => has_char "," piece = false) ss.
Proof.
  intros Hspot Hg Hs Hgn Hsn Hrun. builder_inv Hspot.
  match goal with
  | Hv : _ && _ = true -> exists g s, _ |- _ => rename Hv into Hvpc
  end.
  rewrite Hg, Hs in Hvpc. simpl in Hvpc.
  apply String.eqb_neq in Hgn. apply String.eqb_neq in Hsn.
  rewrite Hgn, Hsn in Hvpc.
  destruct (Hvpc eq_refl) as (g & s & Eg & Es & Hlg & Hls).
  injection Eg as <-. injection Es as <-.
  exists (split_on "," "" groups), (split_on "," "" subnets).
  split; [chase; exact Hlg|]. split; [chase; exact Hls|].
  split; [apply (split_on_join "," "" groups)|].
  split; [apply (split_on_join "," "" subnets)|].
  split; now apply split_on_pieces.
Qed.

End StringExtras.

(* ================================================================== *)
(** ** Status polling, outputs and the hooks *)
(* ================================================================== *)

Section Respects.

Variable R : world -> world -> Prop.
Hypothesis R_refl : forall w, R w w.
Hypothesis R_trans : forall w1 w2 w3, R w1 w2 -> R w2 w3 -> R w1 w3.

Lemma respects_ret {A : Type} (a : A) : respects R (ret a).
Proof. intros w res w' H. injection H as _ <-. apply R_refl. Qed.

Lemma respects_raise {A : Type} (e : exn) : respects R (@raise A e).
Proof. intros w res w' H. injection H as _ <-. apply R_refl. Qed.

Lemma respects_lift {A : Type} (r : exn + A) : respects R (lift r).
Proof. intros w res w' H. injection H as _ <-. apply R_refl. Qed.

Lemma respects_self_name : respects R self_training_job_name.
Proof.
  intros w res w'. unfold self_training_job_name.
  destruct (_training_job_name w); intros H; injection H as _ <-; apply R_refl.
Qed.

Lemma respects_bind {A B : Type} (m : M A) (f : A -> M B) :
  respects R m -> (forall a, respects R (f a)) -> respects R (bind m f).
Proof.
  intros Hm Hf w res w'. unfold bind.
  destruct (m w) as [[e|a] w1] eqn:E.
  - intros H. injection H as _ <-. eapply Hm, E.
  - intros H. eapply R_trans; [eapply Hm, E|eapply Hf, H].
Qed.

Lemma respects_if {A : Type} (b : bool) (m1 m2 : M A) :
  respects R m1 -> respects R m2 -> respects R (if b then m1 else m2).
Proof. now destruct b. Qed.

End Respects.

Lemma outputs_kept_outside_refl (keys : list string) (w : world) :
  outputs_kept_outside keys w w.
Proof. intros k _. reflexivity. Qed.

Lemma outputs_kept_outside_trans (keys : list string) (w1 w2 w3 : world) :
  outputs_kept_outside keys w1 w2 -> outputs_kept_outside keys w2 w3 ->
  outputs_kept_outside keys w1 w3.
Proof. intros H1 H2 k Hk. now rewrite (H2 k Hk), (H1 k Hk). Qed.

Lemma outputs_kept_trans (w1 w2 w3 : world) :
  outputs_kept w1 w2 -> outputs_kept w2 w3 -> outputs_kept w1 w3.
Proof. unfold outputs_kept. congruence. Qed.

Section HookExtras.

Context {env : Environment}.

(** X8. A status the classifier returns is completed exactly when the
    description's TrainingJobStatus is the string "Completed" or "Failed",
    carries an error exactly for "Failed", and then its message is the
    description's FailureReason; for every other status value, of any type,
    it has no message. *)
Theorem returned_status_reflects_description (w w' : world)
  (name response : value) (st : SageMakerJobStatus) :
  _training_job_name w = Some name ->
  sm_describe_training_job (calls w) name = inr response ->
  _get_job_status w = (inr st, w') ->
  exists status,
    lookup1 "TrainingJobStatus" response = Some status
    /\ (is_completed st = true
        <-> status = VStr "Completed" \/ status = VStr "Failed")
    /\ (has_error st = Some true <-> status = VStr "Failed")
    /\ (status = VStr "Failed" ->
        exists reason,
          lookup1 "FailureReason" response = Some reason
          /\ error_message st = Some reason)
    /\ (status <> VStr "Failed" -> error_message st = None).
Proof.
  intros Hn Hd. unfold _get_job_status.
  rewrite (bind_continues _ _ _ _ _ (self_name_run w name Hn)).
  unfold bind at 1, describe_training_job at 1. rewrite Hd.
  destruct response as [| | | | |d]; try (intros H; discriminate H).
  unfold bind at 1, lift at 1, py_getitem at 1.
  destruct (dict_get "TrainingJobStatus" d) as [status|] eqn:Hs;
    [|intros H; discriminate H].
  intros H. exists status. split; [exact Hs|].
  assert (Hstr : forall k, is_str k status = true -> status = VStr k).
  { intros k Hk. destruct status; try discriminate Hk.
    simpl in Hk. apply String.eqb_eq in Hk. now subst. }
  destruct (is_str "Completed" status) eqn:Hc.
  - injection H as <- _. rewrite (Hstr _ Hc). simpl.
    repeat split; try discriminate; auto.
  - destruct (is_str "Failed" status) eqn:Hf.
    + rewrite (Hstr _ Hf) in *. unfold bind, lift, ret, py_getitem in H.
      destruct (dict_get "FailureReason" d) as [reason|] eqn:Hr;
        [|discriminate H].
      injection H as <- _. simpl. rewrite Hr.
      repeat split; auto; try congruence. eauto.
    + injection H as <- _. simpl.
      assert (Hnc : status <> VStr "Completed")
        by (intros ->; discriminate Hc).
      assert (Hnf : status <> VStr "Failed")
        by (intros ->; discriminate Hf).
      repeat split; try discriminate; tauto.
Qed.

(** X9. One poll issues exactly one remote call, the description of the
    run's own job, whatever comes back, and touches nothing else; it fails
    only when that call fails, when the answer is not a dictionary, when the
    answer has no TrainingJobStatus, or when the status is "Failed" and the
    answer has no FailureReason. *)
Theorem status_poll_failures (w w' : world) (name : value)
  (res : exn + SageMakerJobStatus) :
  _training_job_name w = Some name ->
  _get_job_status w = (res, w') ->
  w' = add_call (DescribeTrainingJob name) w
  /\ (forall e,
        res = inl e ->
        sm_describe_training_job (calls w) name = inl e
        \/ exists response,
             sm_describe_training_job (calls w) name = inr response
             /\ ((e = TypeError /\ forall d, response <> VDict d)
                 \/ (e = KeyError "TrainingJobStatus"
                     /\ is_dict (Some response) = true
                     /\ lookup1 "TrainingJobStatus" response = None)
                 \/ (e = KeyError "FailureReason"
                     /\ lookup1 "TrainingJobStatus" response
                        = Some (VStr "Failed")
                     /\ lookup1 "FailureReason" response = None))).
Proof.
  intros Hn. unfold _get_job_status.
  rewrite (bind_continues _ _ _ _ _ (self_name_run w name Hn)).
  unfold bind at 1, describe_training_job at 1.
  destruct (sm_describe_training_job (calls w) name) as [e0|response] eqn:Hd.
  { intros H. injection H as <- <-. split; [reflexivity|].
    intros e He. injection He as <-. now left. }
  unfold bind at 1, lift at 1.
  destruct response as [| | | | |d];
    try (simpl; intros H; injection H as <- <-; split; [reflexivity|];
         intros e He; injection He as <-; right; eexists;
         split; [reflexivity|]; left; split; [reflexivity|];
         intros d0; discriminate).
  unfold py_getitem at 1.
  destruct (dict_get "TrainingJobStatus" d) as [status|] eqn:Hs.
  2:{ intros H. injection H as <- <-. split; [reflexivity|].
      intros e He. injection He as <-. right. eexists.
      split; [reflexivity|]. right. left. now repeat split. }
  destruct (is_str "Completed" status) eqn:Hc.
  { intros H. injection H as <- <-. split; [reflexivity|].
    intros e He. discriminate He. }
  destruct (is_str "Failed" status) eqn:Hf.
  2:{ intros H. injection H as <- <-. split; [reflexivity|].
      intros e He. discriminate He. }
  assert (Hst : status = VStr "Failed").
  { destruct status; try discriminate Hf. unfold is_str in Hf.
    apply String.eqb_eq in Hf. now subst. }
  unfold bind, lift, ret, py_getitem.
  destruct (dict_get "FailureReason" d) as [reason|] eqn:Hr.
  - intros H. injection H as <- <-. split; [reflexivity|].
    intros e He. discriminate He.
  - intros H. injection H as <- <-. split; [reflexivity|].
    intros e He. injection He as <-. right. eexists.
    split; [reflexivity|]. right. right. subst status. now repeat split.
Qed.

End HookExtras.

Section OutputExtras.

Context {env : Environment}.

Lemma respects_describe (R : world -> world -> Prop) (name : value) :
  (forall w c, R w (add_call c w)) -> respects R (describe_training_job name).
Proof. intros HR w res w' H. injection H as _ <-. apply HR. Qed.

Lemma respects_describe_algorithm (R : world -> world -> Prop) (name : value) :
  (forall w c, R w (add_call c w)) -> respects R (describe_algorithm name).
Proof. intros HR w res w' H. injection H as _ <-. apply HR. Qed.

Lemma respects_stop (R : world -> world -> Prop) (name : value) :
  (forall w c, R w (add_call c w)) -> respects R (stop_training_job name).
Proof. intros HR w res w' H. injection H as _ <-. apply HR. Qed.

Lemma respects_create (R : world -> world -> Prop) (request : value) :
  (forall w c, R w (add_call c w)) -> respects R (create_training_job request).
Proof. intros HR w res w' H. injection H as _ <-. apply HR. Qed.

Lemma respects_print (R : world -> world -> Prop) (group : string)
  (stream : value) :
  (forall w c, R w (add_call c w)) ->
  respects R (_print_cloudwatch_logs group stream).
Proof. intros HR w res w' H. injection H as _ <-. apply HR. Qed.

Lemma respects_global (R : world -> world -> Prop) :
  (forall w, R w w) -> respects R global_job_name.
Proof.
  intros HR. unfold global_job_name.
  destruct job_name; [now apply respects_ret|now apply respects_raise].
Qed.

Lemma respects_set_output_outside (k : string) (v : value) :
  existsb (String.eqb k) output_keys = true ->
  respects (outputs_kept_outside output_keys) (set_output k v).
Proof.
  intros Hk w res w' H. injection H as _ <-. intros a Ha. simpl.
  apply dict_get_set_other. apply String.eqb_neq. intros ->.
  rewrite Hk in Ha. discriminate.
Qed.

(** X10. [_after_job_complete] writes each output as soon as it has it.
    When the first description fails, the failure is returned with job_name
    already written; when the second one fails, job_name and the artifact URL
    are written and training_image is as it was. *)
Theorem outputs_written_before_failure (w : world) (name : value) :
  _training_job_name w = Some name ->
  (forall e,
     sm_describe_training_job (calls w) name = inl e ->
     _after_job_complete w
     = (inl e,
        add_call (DescribeTrainingJob name) (with_output "job_name" name w)))
  /\ (forall first url e,
        sm_describe_training_job (calls w) name = inr first ->
        lookup2 "ModelArtifacts" "S3ModelArtifacts" first = Some url ->
        sm_describe_training_job (calls w ++ [DescribeTrainingJob name])%list
          name = inl e ->
        exists w',
          _after_job_complete w = (inl e, w')
          /\ outputs w'
             = dict_set "model_artifact_url" url
                 (dict_set "job_name" name (outputs w))
          /\ dict_get "training_image" (outputs w')
             = dict_get "training_image" (outputs w)).
Proof.
  intros Hn. unfold _after_job_complete.
  rewrite (bind_continues _ _ _ _ _ (self_name_run w name Hn)).
  rewrite (bind_continues _ _ _ _ _ (set_output_run "job_name" name w)).
  split.
  - intros e He. apply bind_fails. unfold _get_model_artifacts_from_job.
    rewrite (bind_continues _ _ _ _ _
               (self_name_run (with_output "job_name" name w) name Hn)).
    apply bind_fails. unfold describe_training_job. simpl. now rewrite He.
  - intros first url e H1 Hurl H2.
    rewrite (bind_continues _ _ _ _ _
               (get_model_artifacts_run (with_output "job_name" name w) name
                  first url Hn H1 Hurl)).
    rewrite (bind_continues _ _ _ _ _
               (set_output_run "model_artifact_url" url _)).
    eexists. split.
    + apply bind_fails. unfold _get_image_from_job.
      rewrite (bind_continues _ _ _ _ _
                 (self_name_run
                    (with_output "model_artifact_url" url
                       (add_call (DescribeTrainingJob name)
                          (with_output "job_name" name w))) name Hn)).
      apply bind_fails. unfold describe_training_job. simpl. now rewrite H2.
    + split; [reflexivity|]. simpl.
      now rewrite !dict_get_set_other by reflexivity.
Qed.

(** X11. When the description has no TrainingImage, [_get_image_from_job]
    needs its AlgorithmName: without one it raises KeyError after the single
    describe call, with no lookup in the algorithm registry; with one, a
    failure of the registry lookup is returned as it is. *)
Theorem image_lookup_failures (w : world) (name info : value) (spec : dict) :
  _training_job_name w = Some name ->
  sm_describe_training_job (calls w) name = inr info ->
  lookup1 "AlgorithmSpecification" info = Some (VDict spec) ->
  dict_get "TrainingImage" spec = None ->
  (dict_get "AlgorithmName" spec = None ->
   _get_image_from_job w
   = (inl (KeyError "AlgorithmName"), add_call (DescribeTrainingJob name) w))
  /\ (forall algorithm e,
        dict_get "AlgorithmName" spec = Some algorithm ->
        sm_describe_algorithm (calls w ++ [DescribeTrainingJob name])%list
          algorithm = inl e ->
        _get_image_from_job w
        = (inl e,
           add_call (DescribeAlgorithm algorithm)
             (add_call (DescribeTrainingJob name) w))).
Proof.
  intros Hn Hd Hspec Hnone. unfold _get_image_from_job.
  rewrite (bind_continues _ _ _ _ _ (self_name_run w name Hn)).
  unfold bind, describe_training_job, describe_algorithm, lift. rewrite Hd.
  destruct info as [| | | | |d]; try discriminate Hspec. simpl in *.
  rewrite Hspec. simpl. rewrite Hnone. split.
  - intros ->. reflexivity.
  - intros algorithm e -> He. simpl. now rewrite He.
Qed.

(** X12. Whatever it returns, [_after_job_complete] leaves every entry of the
    outputs other than job_name, model_artifact_url and training_image as it
    was, and logs nothing. *)
Theorem after_job_complete_keeps_other_outputs (w w' : world)
  (res : exn + unit) (k : string) :
  _after_job_complete w = (res, w') ->
  existsb (String.eqb k) output_keys = false ->
  dict_get k (outputs w') = dict_get k (outputs w)
  /\ records w' = records w.
Proof.
  intros H Hk. split.
  - revert k Hk.
    change (outputs_kept_outside output_keys w w').
    revert w res w' H.
    change (respects (outputs_kept_outside output_keys) _after_job_complete).
    pose proof (outputs_kept_outside_refl output_keys) as Hr.
    pose proof (outputs_kept_outside_trans output_keys) as Ht.
    assert (Hc : forall w c, outputs_kept_outside output_keys w (add_call c w))
      by (intros w0 c k _; reflexivity).
    unfold _after_job_complete.
    repeat first
      [ apply respects_bind; [assumption| |intros ?]
      | apply respects_if
      | now apply respects_self_name
      | now apply respects_describe
      | now apply respects_describe_algorithm
      | now apply respects_lift
      | now apply respects_set_output_outside ].
  - revert w res w' H.
    change (respects (fun w w' => records w' = records w) _after_job_complete).
    assert (Hr : forall w, records w = records w) by reflexivity.
    assert (Ht : forall w1 w2 w3 : world,
               records w2 = records w1 -> records w3 = records w2 ->
               records w3 = records w1) by (intros; congruence).
    assert (Hc : forall w c, records (add_call c w) = records w)
      by reflexivity.
    unfold _after_job_complete.
    repeat first
      [ apply (respects_bind _ Ht); [ |intros ?]
      | apply respects_if
      | now apply (respects_self_name _ Hr)
      | now apply respects_describe
      | now apply respects_describe_algorithm
      | now apply (respects_lift _ Hr)
      | (intros ? ? ? Hset; now injection Hset as _ <-) ].
Qed.

Lemma call_hook_keeps_outputs (h : hook) (w : world) :
  writes_outputs h = false -> outputs (call_hook h w) = outputs w.
Proof.
  assert (K : forall A (m : M A), respects outputs_kept m ->
              outputs (world_after m w) = outputs w).
  { intros A m Hm. unfold world_after. destruct (m w) as [res w'] eqn:E.
    simpl. eapply Hm, E. }
  assert (Hr : forall w, outputs_kept w w) by reflexivity.
  pose proof outputs_kept_trans as Ht.
  assert (Hc : forall w c, outputs_kept w (add_call c w)) by reflexivity.
  destruct h; try discriminate; intros _; unfold call_hook; apply K.
  - intros w0 res w0' H. apply create_job_request_logs_only in H.
    now apply only_logs_outputs.
  - unfold _submit_job_request.
    destruct request; solve [now apply respects_create | now apply respects_raise].
  - unfold _get_job_status.
    repeat first
      [ apply respects_bind; [assumption| |intros ?]
      | apply respects_if
      | now apply respects_self_name
      | now apply respects_describe
      | now apply respects_lift
      | now apply respects_ret ].
  - unfold _on_job_terminated.
    apply respects_bind; [assumption|now apply respects_global|intros ?].
    now apply respects_stop.
  - unfold _print_logs_for_job.
    apply respects_bind; [assumption|now apply respects_global|intros ?].
    now apply respects_print.
Qed.

(** X13. The outputs are written by [_after_job_complete] alone: after any
    sequence of calls of the other hooks (building and submitting a request,
    polling, printing logs, terminating), whatever they return, the outputs
    are as before. *)
Theorem outputs_untouched_until_completion (hs : list hook) (w : world) :
  forallb (fun h => negb (writes_outputs h)) hs = true ->
  outputs (call_hooks hs w) = outputs w.
Proof.
  unfold call_hooks. revert w.
  induction hs as [|h hs IH]; intros w Hhs; simpl in *; [reflexivity|].
  apply andb_true_iff in Hhs as [Hh Hhs]. apply negb_true_iff in Hh.
  rewrite (IH _ Hhs). now apply call_hook_keeps_outputs.
Qed.

End OutputExtras.

Lemma only_describes_refl (w : world) : only_describes w w.
Proof. exists []. split; [now rewrite app_nil_r|reflexivity]. Qed.

Lemma only_describes_trans (w1 w2 w3 : world) :
  only_describes w1 w2 -> only_describes w2 w3 -> only_describes w1 w3.
Proof.
  intros (l1 & E1 & H1) (l2 & E2 & H2). exists (l1 ++ l2)%list. split.
  - now rewrite E2, E1, app_assoc.
  - now rewrite forallb_app, H1, H2.
Qed.

Section ReadOnlyHooks.

Context {env : Environment}.

Lemma only_describes_describe (name : value) :
  respects only_describes (describe_training_job name).
Proof.
  intros w res w' H. injection H as _ <-.
  now exists [DescribeTrainingJob name].
Qed.

Lemma only_describes_describe_algorithm (name : value) :
  respects only_describes (describe_algorithm name).
Proof.
  intros w res w' H. injection H as _ <-.
  now exists [DescribeAlgorithm name].
Qed.

Lemma only_describes_set_output (k : string) (v : value) :
  respects only_describes (set_output k v).
Proof.
  intros w res w' H. injection H as _ <-. exists []. simpl.
  split; [now rewrite app_nil_r|reflexivity].
Qed.

Ltac only_describes_tac :=
  repeat first
    [ apply (respects_bind _ only_describes_trans); [ |intros ?]
    | apply respects_if
    | apply (respects_self_name _ only_describes_refl)
    | apply only_describes_describe
    | apply only_describes_describe_algorithm
    | apply only_describes_set_output
    | apply (respects_lift _ only_describes_refl)
    | apply (respects_ret _ only_describes_refl) ].

(** X14. Polling and the completion hook only read from the service:
    whatever they return, every remote call they add to the trace is a
    describe call, never a create or a stop, and earlier calls stay in
    place. *)
Theorem polling_and_completion_only_describe (w : world) :
  only_describes w (world_after _get_job_status w)
  /\ only_describes w (world_after _after_job_complete w).
Proof.
  assert (K : forall A (m : M A), respects only_describes m ->
              only_describes w (world_after m w)).
  { intros A m Hm. unfold world_after. destruct (m w) as [res w'] eqn:E.
    simpl. eapply Hm, E. }
  split; apply K.
  - unfold _get_job_status. only_describes_tac.
  - unfold _after_job_complete, _get_model_artifacts_from_job,
      _get_image_from_job. only_describes_tac.
Qed.

(** X15. A request is returned only for inputs the builder could use: the
    algorithm name is a string when no image is given, the metric
    definitions are a dictionary when truthy, both VPC inputs are strings
    when both are truthy, the channels have a positive length, and the tags
    (read with an empty dictionary as default, so a tags entry holding
    [None] does not count as absent) are a dictionary. *)
Theorem returned_request_needs_usable_inputs (inputs : dict) (w w' : world)
  (request : value) :
  spot_frame ->
  _create_job_request inputs w = (inr request, w') ->
  (truthy (get "image" inputs) = false ->
   is_str_value (get "algorithm_name" inputs) = true)
  /\ (truthy (get "metric_definitions" inputs) = true ->
      is_dict_value (get "metric_definitions" inputs) = true)
  /\ (truthy (get "vpc_security_group_ids" inputs)
      && truthy (get "vpc_subnets" inputs) = true ->
      is_str_value (get "vpc_security_group_ids" inputs) = true
      /\ is_str_value (get "vpc_subnets" inputs) = true)
  /\ (exists n, py_len (get "channels" inputs) = inr n /\ (0 < n)%Z)
  /\ is_dict_value (get_or (VDict []) "tags" inputs) = true
  /\ (forall v,
        dict_get "tags" inputs = Some v -> is_dict_value v = true).
Proof.
  intros Hspot Hrun.
  pose proof (selection_after_build _ _ _ _ Hspot Hrun) as [_ Hname].
  builder_inv Hspot.
  match goal with
  | Ht : exists items, get_or _ "tags" inputs = _ /\ _ |- _ =>
      destruct Ht as (tags & Htags & _)
  end.
  match goal with
  | Hm : truthy (get "metric_definitions" inputs) = true -> _ |- _ =>
      rename Hm into Hmetric
  end.
  match goal with
  | Hv : _ && _ = true -> exists groups subnets, _ |- _ => rename Hv into Hvpc
  end.
  split.
  { intros Hi. destruct (Hname Hi) as (s & algos & -> & _). reflexivity. }
  split.
  { intros Hm. destruct (Hmetric Hm) as (items & l & -> & _). reflexivity. }
  split.
  { intros Hv. destruct (Hvpc Hv) as (g & s & Hg & Hs & _).
    destruct (get "vpc_security_group_ids" inputs); try discriminate Hg.
    destruct (get "vpc_subnets" inputs); try discriminate Hs. now split. }
  split; [assumption|]. split; [now rewrite Htags|].
  intros v Hv. unfold get_or in Htags. rewrite Hv in Htags. now subst v.
Qed.

End ReadOnlyHooks.

(* ================================================================== *)
(** ** The further statements at concrete inputs *)
(* ================================================================== *)

Lemma spot_support_accepts (job : value) (global_name : option value)
  (inputs : dict) :
  truthy (get "spot_instance" inputs) = false
  \/ truthy (get "max_wait_time" inputs) = true ->
  @spot_accepts (sample_env job global_name) inputs.
Proof.
  intros H request Hstop. simpl. unfold spot_support.
  destruct (truthy (get "spot_instance" inputs)); [|eauto].
  destruct H as [H|H]; [discriminate|]. rewrite H.
  destruct (py_setitem_ok request "EnableManagedSpotTraining"
              "StoppingCondition" (get "spot_instance" inputs)) as [r1 E1].
  { now apply is_dict_is_some. }
  rewrite E1.
  destruct (setitem2_ok r1 "StoppingCondition" "MaxWaitTimeInSeconds"
              (get "max_wait_time" inputs)) as [r2 E2].
  { pose proof E1 as E1'. facts. chase. assumption. }
  rewrite E2.
  destruct (py_setitem_ok r2 "CheckpointConfig" "StoppingCondition"
              (get "checkpoint_config" inputs)) as [r3 E3].
  { apply is_dict_is_some.
    apply lookup2_is_dict with (k2 := "MaxWaitTimeInSeconds").
    now rewrite (setitem2_lookup2 _ _ _ _ _ E2). }
  rewrite E3. eauto.
Qed.

Lemma extended_spot_frame : @spot_frame extended_env.
Proof. exact (spot_support_frame completed_job None). Qed.

Lemma builder_only_logs_witness :
  calls (world_after (@_create_job_request default_env both_inputs)
           (named_world "job-1")) = []
  /\ outputs (world_after (@_create_job_request default_env neither_inputs)
                (named_world "job-1")) = [].
Proof.
  split.
  - destruct (@builder_only_logs default_env both_inputs (named_world "job-1")
                _ _ (surjective_pairing _)) as (H & _).
    exact H.
  - destruct (@builder_only_logs default_env neither_inputs
                (named_world "job-1") _ _ (surjective_pairing _))
      as (_ & H & _).
    exact H.
Defined.

Lemma builder_copies_plain_inputs_witness :
  exists request w',
    @_create_job_request default_env plain_inputs (named_world "job-1")
    = (inr request, w')
    /\ lookup1 "RoleArn" request = Some (VStr "arn:aws:iam::1:role/r")
    /\ lookup2 "AlgorithmSpecification" "TrainingInputMode" request
       = Some (VStr "File")
    /\ lookup2 "OutputDataConfig" "S3OutputPath" request
       = Some (VStr "s3://bucket/out")
    /\ lookup2 "ResourceConfig" "InstanceType" request
       = Some (VStr "ml.m5.large")
    /\ lookup1 "EnableNetworkIsolation" request = Some (VBool true)
    /\ lookup1 "EnableInterContainerTrafficEncryption" request
       = Some (VBool false).
Proof.
  eexists. eexists. split; [vm_compute; reflexivity|].
  destruct (@builder_copies_plain_inputs default_env plain_inputs
              (named_world "job-1") _ _ (spot_support_frame _ _) eq_refl)
    as (H1 & H2 & H3 & H4 & H5 & H6 & _).
  repeat split; assumption.
Defined.

Lemma builder_keeps_rest_of_template_witness :
  exists request w',
    @_create_job_request extended_env minimal_inputs (named_world "job-1")
    = (inr request, w')
    /\ lookup2 "RetryStrategy" "MaximumRetryAttempts" request = Some (VInt 2)
    /\ lookup1 "Environment" request = None.
Proof.
  eexists. eexists. split; [vm_compute; reflexivity|].
  destruct (@builder_keeps_rest_of_template extended_env minimal_inputs
              (named_world "job-1") _ _ extended_spot_frame eq_refl)
    as [H1 H2].
  split.
  - exact (H2 "RetryStrategy" "MaximumRetryAttempts" eq_refl).
  - exact (H1 "Environment" eq_refl).
Defined.

Lemma builder_log_witness :
  world_after (@_create_job_request default_env both_inputs)
    (named_world "job-1") = named_world "job-1"
  /\ records (world_after
                (@_create_job_request default_env spot_without_wait_inputs)
                (named_world "job-1"))
     = [(ERROR, "Spot training needs a maximum wait time.")].
Proof.
  split.
  - destruct (@builder_log default_env both_inputs (named_world "job-1")
                _ _ eq_refl (surjective_pairing _))
      as [[H _] | (b & o & emitted & E & H & _)].
    + exact H.
    + cbv in E. injection E as _ <-. exact H.
  - destruct (@builder_log default_env spot_without_wait_inputs
                (named_world "job-1") _ _ eq_refl (surjective_pairing _))
      as [[H _] | (b & o & emitted & E & H & _)].
    + vm_compute in H. discriminate H.
    + cbv in E. injection E as _ <-. unfold world_after. rewrite H.
      reflexivity.
Defined.

Lemma builder_succeeds_iff_witness :
  (exists request w',
     @_create_job_request default_env minimal_inputs (named_world "job-1")
     = (inr request, w'))
  /\ (exists request w',
        @_create_job_request default_env spot_inputs (named_world "job-1")
        = (inr request, w'))
  /\ ~ (exists request w',
          @_create_job_request default_env empty_channels_inputs
            (named_world "job-1") = (inr request, w'))
  /\ ~ (exists request w',
          @_create_job_request default_env both_inputs
            (named_world "job-1") = (inr request, w'))
  /\ ~ (exists request w',
          @_create_job_request default_env custom_algorithm_inputs
            (named_world "job-1") = (inr request, w')).
Proof.
  split; [|split; [|split; [|split]]].
  - apply (@builder_succeeds_iff default_env minimal_inputs
             (named_world "job-1") (VStr "job-1") VNone
             eq_refl eq_refl eq_refl eq_refl eq_refl eq_refl eq_refl
             (spot_support_frame _ _)
             (spot_support_accepts _ _ minimal_inputs (or_introl eq_refl))).
    split; [reflexivity|]. split; [reflexivity|]. do 2 eexists. reflexivity.
  - apply (@builder_succeeds_iff default_env spot_inputs
             (named_world "job-1") (VStr "job-1") VNone
             eq_refl eq_refl eq_refl eq_refl eq_refl eq_refl eq_refl
             (spot_support_frame _ _)
             (spot_support_accepts _ _ spot_inputs (or_intror eq_refl))).
    split; [reflexivity|]. split; [reflexivity|]. do 2 eexists. reflexivity.
  - intros H.
    apply (@builder_succeeds_iff default_env empty_channels_inputs
             (named_world "job-1") (VStr "job-1") VNone
             eq_refl eq_refl eq_refl eq_refl eq_refl eq_refl eq_refl
             (spot_support_frame _ _)
             (spot_support_accepts _ _ empty_channels_inputs
                (or_introl eq_refl))) in H.
    destruct H as (_ & _ & c & cs & H). discriminate H.
  - intros H.
    apply (@builder_succeeds_iff default_env both_inputs
             (named_world "job-1") (VStr "job-1") VNone
             eq_refl eq_refl eq_refl eq_refl eq_refl eq_refl eq_refl
             (spot_support_frame _ _)
             (spot_support_accepts _ _ both_inputs (or_introl eq_refl))) in H.
    destruct H as (_ & H & _). discriminate H.
  - intros H.
    apply (@builder_succeeds_iff default_env custom_algorithm_inputs
             (named_world "job-1") (VStr "job-1") VNone
             eq_refl eq_refl eq_refl eq_refl eq_refl eq_refl eq_refl
             (spot_support_frame _ _)
             (spot_support_accepts _ _ custom_algorithm_inputs
                (or_introl eq_refl))) in H.
    destruct H as (H & _). discriminate H.
Defined.

Lemma vpc_lists_join_back_witness :
  exists request w',
    @_create_job_request default_env full_inputs (named_world "job-1")
    = (inr request, w')
    /\ exists gs ss,
         lookup2 "VpcConfig" "SecurityGroupIds" request = Some (str_values gs)
         /\ lookup2 "VpcConfig" "Subnets" request = Some (str_values ss)
         /\ String.concat "," gs = "sg-1,sg-2"
         /\ String.concat "," ss = "subnet-1".
Proof.
  eexists. eexists. split; [vm_compute; reflexivity|].
  destruct (@vpc_lists_join_back default_env full_inputs (named_world "job-1")
              _ _ "sg-1,sg-2" "subnet-1" (spot_support_frame _ _)
              eq_refl eq_refl ltac:(discriminate) ltac:(discriminate) eq_refl)
    as (gs & ss & H1 & H2 & H3 & H4 & _).
  exists gs, ss. repeat split; assumption.
Defined.

Lemma returned_status_reflects_description_witness :
  exists status,
    lookup1 "TrainingJobStatus" failed_job = Some status
    /\ status = VStr "Failed"
    /\ exists reason,
         lookup1 "FailureReason" failed_job = Some reason
         /\ reason = VStr "OutOfMemory".
Proof.
  destruct (@returned_status_reflects_description (sample_env failed_job None)
              (named_world "job-1") _ (VStr "job-1") failed_job _
              eq_refl eq_refl eq_refl)
    as (status & Hs & _ & He & Hr & _).
  exists status. split; [exact Hs|].
  assert (Hf : status = VStr "Failed") by (apply He; reflexivity).
  split; [exact Hf|].
  destruct (Hr Hf) as (reason & Hreason & Hm).
  exists reason. split; [exact Hreason|]. simpl in Hm. now injection Hm as <-.
Defined.

Lemma status_poll_failures_witness :
  @_get_job_status (sample_env failed_without_reason None) (named_world "job-1")
  = (inl (KeyError "FailureReason"),
     add_call (DescribeTrainingJob (VStr "job-1")) (named_world "job-1")).
Proof.
  destruct (@status_poll_failures (sample_env failed_without_reason None)
              (named_world "job-1") _ (VStr "job-1") _ eq_refl
              (surjective_pairing _)) as [Hw _].
  rewrite (surjective_pairing
             (@_get_job_status (sample_env failed_without_reason None)
                (named_world "job-1"))).
  rewrite Hw. reflexivity.
Defined.

Lemma outputs_written_before_failure_witness :
  outputs (world_after
             (@_after_job_complete
                (flaky_env (inl (Exception "ThrottlingException"))))
             (named_world "job-1"))
  = [ ("job_name", VStr "job-1") ]
  /\ outputs (world_after (@_after_job_complete (flaky_env (inr completed_job)))
                (named_world "job-1"))
     = [ ("job_name", VStr "job-1");
         ("model_artifact_url", VStr "s3://bucket/model.tar.gz") ].
Proof.
  split.
  - destruct (@outputs_written_before_failure
                (flaky_env (inl (Exception "ThrottlingException")))
                (named_world "job-1") (VStr "job-1") eq_refl) as [H _].
    unfold world_after. now rewrite (H _ eq_refl).
  - destruct (@outputs_written_before_failure (flaky_env (inr completed_job))
                (named_world "job-1") (VStr "job-1") eq_refl) as [_ H].
    destruct (H completed_job (VStr "s3://bucket/model.tar.gz")
                (Exception "ThrottlingException") eq_refl eq_refl eq_refl)
      as (w' & Hrun & Hout & _).
    unfold world_after. rewrite Hrun. exact Hout.
Defined.

Lemma image_lookup_failures_witness :
  @_get_image_from_job (sample_env job_without_selection None)
    (named_world "job-1")
  = (inl (KeyError "AlgorithmName"),
     add_call (DescribeTrainingJob (VStr "job-1")) (named_world "job-1"))
  /\ @_get_image_from_job (flaky_env (inr completed_algorithm_job))
       (named_world "job-1")
     = (inl (Exception "ValidationException"),
        add_call (DescribeAlgorithm (VStr "my-algorithm"))
          (add_call (DescribeTrainingJob (VStr "job-1")) (named_world "job-1"))).
Proof.
  split.
  - destruct (@image_lookup_failures (sample_env job_without_selection None)
                (named_world "job-1") (VStr "job-1") job_without_selection
                [ ("TrainingInputMode", VStr "File") ]
                eq_refl eq_refl eq_refl eq_refl) as [H _].
    exact (H eq_refl).
  - destruct (@image_lookup_failures (flaky_env (inr completed_algorithm_job))
                (named_world "job-1") (VStr "job-1") completed_algorithm_job
                [ ("AlgorithmName", VStr "my-algorithm") ]
                eq_refl eq_refl eq_refl eq_refl) as [_ H].
    exact (H (VStr "my-algorithm") _ eq_refl eq_refl).
Defined.

Lemma after_job_complete_keeps_other_outputs_witness :
  dict_get "endpoint"
    (outputs (world_after (@_after_job_complete default_env)
                (world_with_outputs "job-1"
                   [ ("endpoint", VStr "e-1"); ("job_name", VStr "old") ])))
  = Some (VStr "e-1").
Proof.
  destruct (@after_job_complete_keeps_other_outputs default_env
              (world_with_outputs "job-1"
                 [ ("endpoint", VStr "e-1"); ("job_name", VStr "old") ])
              _ _ "endpoint" (surjective_pairing _) eq_refl) as [H _].
  exact H.
Defined.

Lemma outputs_untouched_until_completion_witness :
  outputs (@call_hooks default_env
             [ CreateJobRequest minimal_inputs; SubmitJobRequest VNone;
               GetJobStatus; PrintLogsForJob; GetJobStatus; OnJobTerminated ]
             (named_world "job-1"))
  = [].
Proof.
  exact (@outputs_untouched_until_completion default_env
           [ CreateJobRequest minimal_inputs; SubmitJobRequest VNone;
             GetJobStatus; PrintLogsForJob; GetJobStatus; OnJobTerminated ]
           (named_world "job-1") eq_refl).
Defined.

Lemma polling_and_completion_only_describe_witness :
  calls (world_after (@_after_job_complete
                        (sample_env completed_algorithm_job None))
           (named_world "job-1"))
  = [ DescribeTrainingJob (VStr "job-1"); DescribeTrainingJob (VStr "job-1");
      DescribeAlgorithm (VStr "my-algorithm") ]
  /\ only_describes (named_world "job-1")
       (world_after (@_get_job_status default_env) (named_world "job-1")).
Proof.
  destruct (@polling_and_completion_only_describe
              (sample_env completed_algorithm_job None) (named_world "job-1"))
    as [_ H].
  split; [reflexivity|].
  exact (proj1 (@polling_and_completion_only_describe default_env
                  (named_world "job-1"))).
Defined.

Lemma returned_request_needs_usable_inputs_witness :
  (exists request w',
     @_create_job_request default_env full_inputs (named_world "job-1")
     = (inr request, w')
     /\ is_dict_value (get "metric_definitions" full_inputs) = true)
  /\ @_create_job_request default_env none_tags_inputs (named_world "job-1")
     = (inl AttributeError, named_world "job-1").
Proof.
  split; [|reflexivity].
  eexists. eexists. split; [vm_compute; reflexivity|].
  destruct (@returned_request_needs_usable_inputs default_env full_inputs
              (named_world "job-1") _ _ (spot_support_frame _ _) eq_refl)
    as (_ & H & _).
  exact (H eq_refl).
Defined.
